(** * Skill-mapping backend: a shallow embedding and its properties

    The development follows the four Python modules of the repository:
    - [skill_store]       the CSV-backed employer-skill store (list/update/delete),
    - [lightcast_service] the taxonomy normalisation pass,
    - [coursera_service]  the course crawler and the mapping aggregation,
    - [main]              the HTTP handlers and their exception mapping.

    Python strings are modelled as [string], read as sequences of code points
    below 256.  Exceptions are modelled by the [result] type; code that
    overwrites the store file passes the file state explicitly.  What
    pandas and the sheet writer do with a cell, a pattern or a frame is a
    parameter of the functions that call them. *)

From Stdlib Require Import String Ascii List Bool Arith Lia.
From Stdlib Require Import Sorted Permutation.
Import ListNotations.
Open Scope string_scope.

(* ================================================================== *)
(** ** Python built-ins used by the source *)
(* ================================================================== *)

Module Py.

(** [str.isspace] on one code point below 256. *)
Definition isspace (c : ascii) : bool :=
  let n := nat_of_ascii c in
  (((9 <=? n) && (n <=? 13)) || ((28 <=? n) && (n <=? 32))
   || (n =? 133) || (n =? 160))%nat.

(** [str.lower] on one code point below 256: A-Z and the Latin-1 capitals
    (0xC0-0xDE, the multiplication sign 0xD7 excepted) move up by 32. *)
Definition lower_char (c : ascii) : ascii :=
  let n := nat_of_ascii c in
  if (((65 <=? n) && (n <=? 90))
      || ((192 <=? n) && (n <=? 222) && negb (n =? 215)))%nat
  then ascii_of_nat (n + 32) else c.

Fixpoint lower (s : string) : string :=
  match s with
  | EmptyString => EmptyString
  | String c s' => String (lower_char c) (lower s')
  end.

Fixpoint lstrip (s : string) : string :=
  match s with
  | EmptyString => EmptyString
  | String c s' => if isspace c then lstrip s' else s
  end.

Fixpoint rstrip (s : string) : string :=
  match s with
  | EmptyString => EmptyString
  | String c s' =>
      match rstrip s' with
      | EmptyString => if isspace c then EmptyString else String c EmptyString
      | t => String c t
      end
  end.

(** [s.strip()] *)
Definition strip (s : string) : string := rstrip (lstrip s).

(** [sub in s] on strings: literal substring test. *)
Fixpoint contains (sub s : string) : bool :=
  String.prefix sub s
  || match s with
     | EmptyString => false
     | String _ s' => contains sub s'
     end.

(** [sep.join(l)] *)
Definition join (sep : string) (l : list string) : string := String.concat sep l.

(** [s.split(sep)] for a non-empty separator: the pieces between the
    non-overlapping occurrences of [sep], found from the left.  [skip] counts
    the characters of a matched separator that are still to be dropped; the
    result is the piece being read and the pieces after it. *)
Fixpoint split_from (sep : string) (skip : nat) (s : string)
  : string * list string :=
  match s with
  | EmptyString => (EmptyString, [])
  | String c s' =>
      match skip with
      | S k => split_from sep k s'
      | O =>
          if String.prefix sep s
          then let '(p, ps) := split_from sep (String.length sep - 1) s' in
               (EmptyString, p :: ps)
          else let '(p, ps) := split_from sep 0 s' in
               (String c p, ps)
      end
  end.

Definition split (sep s : string) : list string :=
  let '(p, ps) := split_from sep 0 s in p :: ps.

(** [list(dict.fromkeys(l))]: keys in insertion order, a key met again keeps
    its first position.  [seen] is the dictionary built so far; [eqb] is the
    equality of the keys. *)
Section Fromkeys.
Context {A : Type} (eqb : A -> A -> bool).

Definition mem (x : A) (l : list A) : bool := existsb (eqb x) l.

Fixpoint fromkeys_from (seen l : list A) : list A :=
  match l with
  | [] => []
  | x :: t =>
      if mem x seen then fromkeys_from seen t
      else x :: fromkeys_from (x :: seen) t
  end.

Definition fromkeys_by (l : list A) : list A := fromkeys_from [] l.
End Fromkeys.

Definition fromkeys (l : list string) : list string :=
  fromkeys_by String.eqb l.

(** [sorted(l)] by insertion, generic in the order test. *)
Section Sorting.
Context {A : Type} (leb : A -> A -> bool).

Fixpoint insert (x : A) (l : list A) : list A :=
  match l with
  | [] => [x]
  | y :: t => if leb x y then x :: l else y :: insert x t
  end.

Fixpoint sorted (l : list A) : list A :=
  match l with
  | [] => []
  | x :: t => insert x (sorted t)
  end.
End Sorting.

(** [set(l)] as the list of its distinct members; the source only ever
    iterates such a set through [sorted]. *)
Definition set (l : list string) : list string := fromkeys l.

(** [s.replace(old, new)] for a non-empty [old]: the pieces between the
    occurrences of [old], put together again with [new]. *)
Definition replace (old new s : string) : string := join new (split old s).

(** Truthiness of an [Optional[str]] argument: [None] and [""] are falsy. *)
Definition truthy (o : option string) : bool :=
  match o with
  | Some s => negb (s =? "")
  | None => false
  end.

End Py.

(* ================================================================== *)
(** ** Exceptions *)
(* ================================================================== *)

(** The source raises [ValueError] for its own validation failures, and
    the [EmptyDataError] of pandas is a subclass of it; every other
    exception class the source can meet (a pattern error of the regular
    expression engine, a transport error, a cell the sheet writer
    refuses) is [OtherError]. *)
Inductive exn : Type :=
| ValueError (msg : string)
| OtherError (msg : string).

(** [str(e)] *)
Definition str_exn (e : exn) : string :=
  match e with ValueError m => m | OtherError m => m end.

Inductive result (A : Type) : Type :=
| Ok (a : A)
| Raise (e : exn).
Arguments Ok {A} a.
Arguments Raise {A} e.

Definition bind {A B} (m : result A) (k : A -> result B) : result B :=
  match m with
  | Ok a => k a
  | Raise e => Raise e
  end.

Notation "x <- m ;; k" := (bind m (fun x => k))
  (at level 61, m at next level, right associativity).
Notation "m ;;; k" := (bind m (fun _ => k))
  (at level 61, right associativity).

(* ================================================================== *)
(** ** skill_store.py *)
(* ================================================================== *)

Record SkillRecord : Type := mkSkill {
  remote_skill_id : string;
  workday_skill : string;
  lightcast_skill : string;
  lightcast_skill_id : string;
  skill_type : string;
  category : string;
  status : string
}.

(** A frame with the seven [COLUMNS]; one record per row, in row order. *)
Definition DataFrame : Type := list SkillRecord.

(** The state of [normalized_skills.csv]: absent; written from a frame
    that has no columns, which leaves a file without a header line; or a
    header line followed by the rows of cells as they were written. *)
Inductive Store : Type :=
| Absent
| Blank
| Table (rows : DataFrame).

(** The message of the [EmptyDataError], a [ValueError], that
    [pd.read_csv] raises on a file without a header line. *)
Definition EMPTY_DATA : string := "No columns to parse from file".

Definition set_lightcast_skill (v : string) (r : SkillRecord) : SkillRecord :=
  mkSkill (remote_skill_id r) (workday_skill r) v (lightcast_skill_id r)
          (skill_type r) (category r) (status r).

Module skill_store.

Section WithPandas.

(** The cell texts that [pd.read_csv] reads as missing values. *)
Variable is_na : string -> bool.

(** [Series.str.contains(pat, na=False)]: pandas compiles [pat] as a
    regular expression once, which either fails with the engine's message
    or gives the test applied to every cell. *)
Variable str_contains : string -> string + (string -> bool).

(** [df.to_excel("uploads/normalized_skills.xlsx", index=False)]: the
    sheet writer accepts the frame or raises, for a cell it cannot store
    or a frame too large for a sheet. *)
Variable to_excel : DataFrame -> result unit.

Definition read_cell (s : string) : string :=
  if is_na s then "" else s.

(** [pd.read_csv(..., dtype=str)] followed by [.fillna("")] on one row. *)
Definition read_row (r : SkillRecord) : SkillRecord :=
  mkSkill (read_cell (remote_skill_id r)) (read_cell (workday_skill r))
          (read_cell (lightcast_skill r)) (read_cell (lightcast_skill_id r))
          (read_cell (skill_type r)) (read_cell (category r))
          (read_cell (status r)).

Definition load_df (st : Store) : result DataFrame :=
  match st with
  | Absent => Ok []
  | Blank => Raise (ValueError EMPTY_DATA)
  | Table rows => Ok (map read_row rows)
  end.

(** [to_csv] rewrites the file, then [to_excel] mirrors it: when the
    mirror raises, the file has already changed. *)
Definition save_df (df : DataFrame) : Store * result unit :=
  (Table df, to_excel df).

(** [(col.str.strip() == value.strip())] *)
Definition id_mask (rid : string) (r : SkillRecord) : bool :=
  Py.strip (remote_skill_id r) =? Py.strip rid.

(** [col.str.lower().str.contains(value.lower(), na=False)] *)
Definition contains_mask (col : SkillRecord -> string) (value : string)
  : result (SkillRecord -> bool) :=
  match str_contains (Py.lower value) with
  | inl msg => Raise (OtherError msg)
  | inr test => Ok (fun r => test (Py.lower (col r)))
  end.

(** [(col.str.lower().str.strip() == value.lower().strip())] *)
Definition exact_mask (w : string) (r : SkillRecord) : bool :=
  Py.strip (Py.lower (workday_skill r)) =? Py.strip (Py.lower w).

Definition not_found (column value : string) : exn :=
  ValueError (column ++ " '" ++ value ++ "' not found").

(** [if arg: ...] on an optional string argument. *)
Definition when_given {A} (arg : option string) (skip : A) (body : string -> A) : A :=
  match arg with
  | Some s => if s =? "" then skip else body s
  | None => skip
  end.

Definition list_skills (st : Store)
    (remote_skill_id_arg workday_skill_arg lightcast_skill_arg : option string)
  : result (list SkillRecord) :=
  df <- load_df st ;;
  (* validate existence first *)
  when_given remote_skill_id_arg (Ok tt) (fun rid =>
    if negb (existsb (id_mask rid) df)
    then Raise (not_found "remote_skill_id" rid) else Ok tt) ;;;
  when_given workday_skill_arg (Ok tt) (fun w =>
    m <- contains_mask workday_skill w ;;
    if negb (existsb m df)
    then Raise (not_found "workday_skill" w) else Ok tt) ;;;
  when_given lightcast_skill_arg (Ok tt) (fun l =>
    m <- contains_mask lightcast_skill l ;;
    if negb (existsb m df)
    then Raise (not_found "lightcast_skill" l) else Ok tt) ;;;
  (* apply filters after validation *)
  let filtered := df in
  let filtered :=
    when_given remote_skill_id_arg filtered (fun rid =>
      filter (id_mask rid) filtered) in
  filtered <- when_given workday_skill_arg (Ok filtered) (fun w =>
    m <- contains_mask workday_skill w ;; Ok (filter m filtered)) ;;
  filtered <- when_given lightcast_skill_arg (Ok filtered) (fun l =>
    m <- contains_mask lightcast_skill l ;; Ok (filter m filtered)) ;;
  Ok filtered.

(** [df.loc[mask, "lightcast_skill"] = v] *)
Definition loc_set_lightcast (mask : SkillRecord -> bool) (v : string)
    (df : DataFrame) : DataFrame :=
  map (fun r => if mask r then set_lightcast_skill v r else r) df.

Definition update_lightcast_skill (st : Store)
    (workday_skill_arg new_lightcast_skill : string)
  : Store * result unit :=
  match load_df st with
  | Raise e => (st, Raise e)
  | Ok df =>
      let mask := exact_mask workday_skill_arg in
      if negb (existsb mask df)
      then (st, Raise (ValueError "Workday skill not found"))
      else
        let df := loc_set_lightcast mask new_lightcast_skill df in
        save_df df
  end.

Definition delete_skill (st : Store)
    (remote_skill_id_arg workday_skill_arg : option string)
  : Store * result unit :=
  if negb (Py.truthy remote_skill_id_arg) && negb (Py.truthy workday_skill_arg)
  then (st, Raise (ValueError
              "Either remote_skill_id or workday_skill must be provided"))
  else
    match load_df st with
    | Raise e => (st, Raise e)
    | Ok df =>
        when_given remote_skill_id_arg
          (when_given workday_skill_arg
             (save_df df)
             (fun w =>
                let mask := exact_mask w in
                if negb (existsb mask df)
                then (st, Raise (not_found "workday_skill" w))
                else
                  let df := filter (fun r => negb (mask r)) df in
                  save_df df))
          (fun rid =>
             let mask := id_mask rid in
             if negb (existsb mask df)
             then (st, Raise (not_found "remote_skill_id" rid))
             else
               let df := filter (fun r => negb (mask r)) df in
               save_df df)
    end.

Definition not_ready (column value : string) : exn :=
  ValueError (column ++ " '" ++ value
              ++ "' not found in lightcast-ready records").

Definition get_lightcast_ready_df (st : Store)
    (remote_skill_id_arg workday_skill_arg : option string)
  : result DataFrame :=
  df <- load_df st ;;
  (* base condition: lightcast-ready only *)
  let filtered :=
    filter (fun r => negb (Py.strip (lightcast_skill r) =? "")) df in
  match filtered with
  | [] => Raise (ValueError "No records with valid lightcast_skill found")
  | _ :: _ =>
      when_given remote_skill_id_arg (Ok tt) (fun rid =>
        if negb (existsb (id_mask rid) filtered)
        then Raise (not_ready "remote_skill_id" rid) else Ok tt) ;;;
      when_given workday_skill_arg (Ok tt) (fun w =>
        m <- contains_mask workday_skill w ;;
        if negb (existsb m filtered)
        then Raise (not_ready "workday_skill" w) else Ok tt) ;;;
      let filtered :=
        when_given remote_skill_id_arg filtered (fun rid =>
          filter (id_mask rid) filtered) in
      filtered <- when_given workday_skill_arg (Ok filtered) (fun w =>
        m <- contains_mask workday_skill w ;; Ok (filter m filtered)) ;;
      Ok filtered
  end.

End WithPandas.

End skill_store.

(* ================================================================== *)
(** ** lightcast_service.py *)
(* ================================================================== *)

Module lightcast_service.

(** One row of the uploaded sheet: the two columns the pass reads, the skill
    name as [str(row["skill_name"])] renders it. *)
Record InputRow : Type := mkInput {
  in_remote_skill_id : string;
  in_skill_name : string
}.

(** One entry of the ["data"] array of a search response: a JSON object in
    which each key may be missing. *)
Record Hit : Type := mkHit {
  hit_name : option string;
  hit_id : option string;
  hit_type : option string;
  hit_category : option string
}.

(** [s.get(key)] written to a cell: a missing value is an empty cell. *)
Definition cell (o : option string) : string :=
  match o with Some v => v | None => "" end.

Section WithTaxonomy.

(** The outcome of the search request made for the row at position [i]
    with query [q]: [None] when the request, its status check or its JSON
    decoding raises, otherwise the ["data"] array (empty when absent). *)
Variable search : nat -> string -> option (list Hit).

(** [out_df.to_excel("uploads/normalized_skills.xlsx", index=False)] *)
Variable to_excel : DataFrame -> result unit.

Definition blank (row : InputRow) (skill st : string) : SkillRecord :=
  mkSkill (in_remote_skill_id row) skill "" "" "" "" st.

(** The body of the loop for a row whose stripped name is not empty:
    the [try] block and its [except Exception] handler. *)
Definition lookup (i : nat) (row : InputRow) (skill : string) : SkillRecord :=
  match search i skill with
  | None => blank row skill "ERROR"
  | Some [] => blank row skill "NO_MATCH"
  | Some (s :: _) =>
      match hit_name s, hit_id s with
      | Some name, Some id =>
          mkSkill (in_remote_skill_id row) skill name id
                  (cell (hit_type s)) (cell (hit_category s)) "SUCCESS"
      | _, _ => blank row skill "ERROR"   (* KeyError, caught *)
      end
  end.

(** [for _, row in df.iterrows(): ...] with [results] as accumulator. *)
Fixpoint normalize_rows (i : nat) (df : list InputRow)
    (results : list SkillRecord) : list SkillRecord :=
  match df with
  | [] => results
  | row :: rest =>
      let skill := Py.strip (in_skill_name row) in
      if skill =? "" then normalize_rows (S i) rest results
      else normalize_rows (S i) rest (results ++ [lookup i row skill])
  end.

Definition supported (suffix : string) : bool :=
  let sfx := Py.lower suffix in
  Py.mem String.eqb sfx [".xlsx"; ".xls"] || (sfx =? ".csv").

(** [pd.DataFrame(results).to_csv(STORE_FILE, index=False)]: a frame made
    from no record has no column, and its file no header line. *)
Definition to_csv (results : DataFrame) : Store :=
  match results with
  | [] => Blank
  | _ :: _ => Table results
  end.

(** [token] is the outcome of [get_lightcast_token()], [suffix] the
    suffix of the uploaded path and [df] the parsed upload. *)
Definition normalize_file (st : Store) (token : result string)
    (suffix : string) (df : list InputRow) : Store * result unit :=
  match token with
  | Raise e => (st, Raise e)
  | Ok _ =>
      if supported suffix then
        let results := normalize_rows 0 df [] in
        (to_csv results, to_excel results)
      else
        (st, Raise (ValueError "Unsupported file format. Upload CSV or Excel."))
  end.

End WithTaxonomy.

End lightcast_service.

(* ================================================================== *)
(** ** coursera_service.py *)
(* ================================================================== *)

(** A parsed HTML document as BeautifulSoup presents it: text strings and
    tags with their contents. *)
#[warnings="-register-all"]
Inductive node : Type :=
| Text (s : string)
| Tag (name : string) (contents : list node).

Record CourseMappingRow : Type := mkMapping {
  m_remote_skill_id : string;
  m_workday_skill : string;
  m_lightcast_skill : string;
  m_lightcast_skill_id : string;
  search_skill_used : string;
  search_skill_source : string;
  course_name : string;
  course_slug : string;
  course_link : string;
  course_skills : string
}.

Record Course : Type := mkCourse {
  c_course_name : string;
  c_course_slug : string;
  c_course_link : string;
  c_course_skills : string
}.

Module coursera_service.

Definition OUTPUT_FILE : string := "uploads/coursera_mapped_skills.xlsx".

(** Document order: a node, then its contents, left to right. *)
Fixpoint preorder (n : node) : list node :=
  n :: match n with
       | Text _ => []
       | Tag _ contents => flat_map preorder contents
       end.

Definition descendants (n : node) : list node := tl (preorder n).

Definition is_tag (name : string) (n : node) : bool :=
  match n with
  | Tag t _ => t =? name
  | Text _ => false
  end.

Definition text_of (n : node) : list string :=
  match n with Text s => [s] | Tag _ _ => [] end.

Definition nonempty (s : string) : bool := negb (s =? "").

(** [n.get_text(strip=True)]: the strings below [n], each stripped, the
    empty ones dropped, joined without separator. *)
Definition get_text (n : node) : string :=
  Py.join "" (filter nonempty (map Py.strip (flat_map text_of (preorder n)))).

(** An element met while walking a document, together with the elements
    that come after it in document order ([next_elements]). *)
Definition element : Type := (node * list node)%type.

Fixpoint with_next (l : list node) : list element :=
  match l with
  | [] => []
  | n :: rest => (n, rest) :: with_next rest
  end.

(** [soup.find_all(name)] keeping each result's place in the document. *)
Definition find_all (name : string) (soup : node) : list element :=
  filter (fun e => is_tag name (fst e)) (with_next (descendants soup)).

(** [e.find_next(name)] *)
Definition find_next (name : string) (e : element) : option node :=
  find (is_tag name) (snd e).

(** [ul.find_all("a")] when only the tags themselves are used. *)
Definition find_all_in (name : string) (n : node) : list node :=
  filter (is_tag name) (descendants n).

(** The links of the first list after one heading. *)
Definition heading_skills (h2 : element) : list string :=
  if Py.contains "skill" (Py.lower (get_text (fst h2))) then
    match find_next "ul" h2 with
    | None => []
    | Some ul => filter nonempty (map get_text (find_all_in "a" ul))
    end
  else [].

Definition page_skills (soup : node) : list string :=
  flat_map heading_skills (find_all "h2" soup).

(** [page] is the outcome of fetching and parsing [course_url]. *)
Definition fetch_course_skills (page : result node) : string :=
  match page with
  | Raise _ => ""
  | Ok soup => Py.join ", " (Py.sorted String.leb (Py.set (page_skills soup)))
  end.

(** *** Aggregation of the emitted rows *)

Definition Key : Type := list string.

Definition key_of (r : CourseMappingRow) : Key :=
  [m_remote_skill_id r; m_workday_skill r; m_lightcast_skill r;
   m_lightcast_skill_id r; search_skill_used r; search_skill_source r].

Fixpoint key_eqb (a b : Key) : bool :=
  match a, b with
  | [], [] => true
  | x :: a', y :: b' => (x =? y) && key_eqb a' b'
  | _, _ => false
  end.

(** Tuples of strings compare lexicographically. *)
Fixpoint key_leb (a b : Key) : bool :=
  match a, b with
  | [], _ => true
  | _ :: _, [] => false
  | x :: a', y :: b' =>
      match String.compare x y with
      | Lt => true
      | Eq => key_leb a' b'
      | Gt => false
      end
  end.

(** [out_df.groupby([...six columns...])]: the distinct keys in sorted
    order, each with its rows in their original order. *)
Definition groupby (rows : list CourseMappingRow)
  : list (Key * list CourseMappingRow) :=
  map (fun k => (k, filter (fun r => key_eqb (key_of r) k) rows))
      (Py.sorted key_leb (Py.fromkeys_by key_eqb (map key_of rows))).

(** [lambda x: ", ".join(dict.fromkeys(x))] *)
Definition agg_unique (x : list string) : string :=
  Py.join ", " (Py.fromkeys x).

(** [lambda x: ", ".join(dict.fromkeys(", ".join(x).split(", ")))] *)
Definition agg_skills (x : list string) : string :=
  Py.join ", " (Py.fromkeys (Py.split ", " (Py.join ", " x))).

Definition agg_group (g : Key * list CourseMappingRow) : CourseMappingRow :=
  let '(k, x) := g in
  mkMapping (nth 0 k "") (nth 1 k "") (nth 2 k "") (nth 3 k "")
            (nth 4 k "") (nth 5 k "")
            (agg_unique (map course_name x))
            (agg_unique (map course_slug x))
            (agg_unique (map course_link x))
            (agg_skills (map course_skills x)).

Definition aggregate (rows : list CourseMappingRow) : list CourseMappingRow :=
  map agg_group (groupby rows).

Section WithCrawler.

(** [fetch_courses_for_skill]: the crawl of the search page, which raises
    when the request fails. *)
Variable fetch_courses_for_skill : string -> result (list Course).

Variable is_na : string -> bool.

(** [final_df.to_excel(OUTPUT_FILE, index=False)] *)
Variable to_excel : list CourseMappingRow -> result unit.

Definition emit (row : SkillRecord) (workday lightcast search source : string)
    (c : Course) : CourseMappingRow :=
  mkMapping (remote_skill_id row) workday lightcast (lightcast_skill_id row)
            search source
            (c_course_name c) (c_course_slug c) (c_course_link c)
            (c_course_skills c).

(** The loop over the store's rows, [rows] being the accumulator. *)
Fixpoint crawl (df : DataFrame) (rows : list CourseMappingRow)
  : result (list CourseMappingRow) :=
  match df with
  | [] => Ok rows
  | row :: rest =>
      let lightcast := Py.strip (lightcast_skill row) in
      let workday := Py.strip (workday_skill row) in
      if negb (lightcast =? "") then
        courses <- fetch_courses_for_skill lightcast ;;
        crawl rest (rows ++ map (emit row workday lightcast lightcast "LIGHTCAST") courses)
      else if negb (workday =? "") then
        courses <- fetch_courses_for_skill workday ;;
        crawl rest (rows ++ map (emit row workday lightcast workday "WORKDAY") courses)
      else crawl rest rows
  end.

(** The result is the content written to the mapping sheet. *)
Definition process_coursera (st : Store) : result (list CourseMappingRow) :=
  match st with
  | Absent => Raise (ValueError "normalized_skills.csv not found")
  | _ =>
      df <- skill_store.load_df is_na st ;;
      rows <- crawl df [] ;;
      match rows with
      | [] => Raise (ValueError "No Coursera courses found")
      | _ :: _ =>
          let final_df := aggregate rows in
          to_excel final_df ;;;
          Ok final_df
      end
  end.

End WithCrawler.

(** *** The crawl of the search page *)

Definition BASE_URL : string := "https://www.coursera.org".
Definition SEARCH_URL : string := "https://www.coursera.org/search?query=".
Definition MAX_COURSES_PER_SKILL : nat := 1.

(** An element selected by [a[href^='/learn/']]: its href attribute and its
    stripped text. *)
Record Anchor : Type := mkAnchor {
  a_href : string;
  a_text : string
}.

(** [a.get("href", "").split("?")[0]] *)
Definition href_of (a : Anchor) : string :=
  hd "" (Py.split "?" (a_href a)).

(** [href.replace("/learn/", "").strip()] *)
Definition slug_of (a : Anchor) : string :=
  Py.strip (Py.replace "/learn/" "" (href_of a)).

Section WithSite.

(** [urllib.parse.quote_plus] and [urllib.parse.urljoin]. *)
Variable quote_plus : string -> string.
Variable urljoin : string -> string -> string.

(** The request for a search URL, its status check, and the elements the
    selector finds in the parsed page, in document order. *)
Variable search_anchors : string -> result (list Anchor).

(** The request for a course URL and the parse of its page. *)
Variable fetch_page : string -> result node.

(** The loop over the selected elements; [seen] and [courses] are the
    set and the list the source fills. *)
Fixpoint scan_anchors (anchors : list Anchor) (seen : list string)
    (courses : list Course) : list Course :=
  match anchors with
  | [] => courses
  | a :: rest =>
      let href := href_of a in
      let slug := slug_of a in
      if (slug =? "") || Py.mem String.eqb slug seen
      then scan_anchors rest seen courses
      else
        let seen := slug :: seen in
        let course_link := urljoin BASE_URL href in
        let courses :=
          (courses ++ [mkCourse (a_text a) slug course_link
                         (fetch_course_skills (fetch_page course_link))])%list in
        if (MAX_COURSES_PER_SKILL <=? List.length courses)%nat then courses
        else scan_anchors rest seen courses
  end.

Definition fetch_courses_for_skill (lightcast_skill : string)
  : result (list Course) :=
  anchors <- search_anchors
               (SEARCH_URL ++ quote_plus lightcast_skill ++ "&sortBy=BEST_MATCH") ;;
  Ok (scan_anchors anchors [] []).

End WithSite.

(** *** Reading the mapping sheet *)

(** The state of [uploads/coursera_mapped_skills.xlsx]: absent, or its
    rows of cells as they were written. *)
Definition MappingFile : Type := option (list CourseMappingRow).

Section WithExcel.

(** The cell texts that [pd.read_excel] reads as missing values, and
    [Series.str.contains] as in the skill store. *)
Variable is_na : string -> bool.
Variable str_contains : string -> string + (string -> bool).

Definition read_mapping_row (r : CourseMappingRow) : CourseMappingRow :=
  let cell := skill_store.read_cell is_na in
  mkMapping (cell (m_remote_skill_id r)) (cell (m_workday_skill r))
            (cell (m_lightcast_skill r)) (cell (m_lightcast_skill_id r))
            (cell (search_skill_used r)) (cell (search_skill_source r))
            (cell (course_name r)) (cell (course_slug r))
            (cell (course_link r)) (cell (course_skills r)).

Definition mapping_id_mask (rid : string) (r : CourseMappingRow) : bool :=
  Py.strip (m_remote_skill_id r) =? Py.strip rid.

Definition mapping_contains_mask (col : CourseMappingRow -> string)
    (value : string) : result (CourseMappingRow -> bool) :=
  match str_contains (Py.lower value) with
  | inl msg => Raise (OtherError msg)
  | inr test => Ok (fun r => test (Py.lower (col r)))
  end.

Definition list_coursera_mapped_skills (file : MappingFile)
    (remote_skill_id_arg workday_skill_arg lightcast_skill_arg : option string)
  : result (list CourseMappingRow) :=
  match file with
  | None =>
      Raise (ValueError
               "Coursera mapping file not found. Run /process/coursera first")
  | Some rows =>
      let df := map read_mapping_row rows in
      match df with
      | [] => Raise (ValueError "No Coursera data available")
      | _ :: _ =>
          (* optional validation *)
          skill_store.when_given remote_skill_id_arg (Ok tt) (fun rid =>
            if negb (existsb (mapping_id_mask rid) df)
            then Raise (skill_store.not_found "remote_skill_id" rid)
            else Ok tt) ;;;
          skill_store.when_given workday_skill_arg (Ok tt) (fun w =>
            m <- mapping_contains_mask m_workday_skill w ;;
            if negb (existsb m df)
            then Raise (skill_store.not_found "workday_skill" w)
            else Ok tt) ;;;
          skill_store.when_given lightcast_skill_arg (Ok tt) (fun l =>
            m <- mapping_contains_mask m_lightcast_skill l ;;
            if negb (existsb m df)
            then Raise (skill_store.not_found "lightcast_skill" l)
            else Ok tt) ;;;
          (* filtering *)
          let df :=
            skill_store.when_given remote_skill_id_arg df (fun rid =>
              filter (mapping_id_mask rid) df) in
          df <- skill_store.when_given workday_skill_arg (Ok df) (fun w =>
            m <- mapping_contains_mask m_workday_skill w ;;
            Ok (filter m df)) ;;
          df <- skill_store.when_given lightcast_skill_arg (Ok df) (fun l =>
            m <- mapping_contains_mask m_lightcast_skill l ;;
            Ok (filter m df)) ;;
          Ok df
      end
  end.

End WithExcel.

End coursera_service.

(* ================================================================== *)
(** ** main.py *)
(* ================================================================== *)

Module main.

Inductive response : Type :=
| Records (rows : list SkillRecord)          (* JSON list of records *)
| FileResponse (path : string)
| HTTPException (status_code : nat) (detail : string).

Definition NORMALIZED_FILE : string := "uploads/normalized_skills.xlsx".

Section WithPandas.

Variable is_na : string -> bool.
Variable str_contains : string -> string + (string -> bool).
Variable to_excel : DataFrame -> result unit.

(** [GET /skills] *)
Definition list_skills (st : Store)
    (remote_skill_id workday_skill lightcast_skill : option string)
  : response :=
  match skill_store.list_skills is_na str_contains st
          remote_skill_id workday_skill lightcast_skill with
  | Ok rows => Records rows
  | Raise e => HTTPException 500 (str_exn e)
  end.

(** [PUT /skills/update] *)
Definition update_skill (st : Store) (workday_skill lightcast_skill : string)
  : Store * response :=
  match skill_store.update_lightcast_skill is_na to_excel st
          workday_skill lightcast_skill with
  | (st', Ok _) => (st', FileResponse NORMALIZED_FILE)
  | (st', Raise (ValueError m)) => (st', HTTPException 404 m)
  | (st', Raise e) => (st', HTTPException 500 (str_exn e))
  end.

(** [DELETE /skills/delete] *)
Definition delete_skill (st : Store)
    (remote_skill_id workday_skill : option string) : Store * response :=
  match skill_store.delete_skill is_na to_excel st
          remote_skill_id workday_skill with
  | (st', Ok _) => (st', FileResponse NORMALIZED_FILE)
  | (st', Raise (ValueError m)) => (st', HTTPException 400 m)
  | (st', Raise e) => (st', HTTPException 500 (str_exn e))
  end.

(** [GET /skills/lightcast-ready] *)
Definition list_lightcast_ready_skills (st : Store)
    (remote_skill_id workday_skill : option string) (download : bool)
  : response :=
  match skill_store.get_lightcast_ready_df is_na str_contains st
          remote_skill_id workday_skill with
  | Ok df =>
      if download then
        match to_excel df with
        | Ok _ => FileResponse "uploads/lightcast_ready_skills.xlsx"
        | Raise (ValueError m) => HTTPException 404 m
        | Raise e => HTTPException 500 (str_exn e)
        end
      else Records df
  | Raise (ValueError m) => HTTPException 404 m
  | Raise e => HTTPException 500 (str_exn e)
  end.

End WithPandas.

(** [POST /process/lightcast]: a single [except Exception] clause. *)
Definition process_lightcast
    (search : nat -> string -> option (list lightcast_service.Hit))
    (to_excel : DataFrame -> result unit)
    (st : Store) (token : result string) (suffix : string)
    (df : list lightcast_service.InputRow) : Store * response :=
  match lightcast_service.normalize_file search to_excel st token suffix df with
  | (st', Ok _) => (st', FileResponse NORMALIZED_FILE)
  | (st', Raise e) => (st', HTTPException 500 (str_exn e))
  end.

(** [POST /process/coursera]: a single [except Exception] clause. *)
Definition process_coursera
    (fetch_courses_for_skill : string -> result (list Course))
    (is_na : string -> bool)
    (to_excel : list CourseMappingRow -> result unit)
    (st : Store) : response :=
  match coursera_service.process_coursera
          fetch_courses_for_skill is_na to_excel st with
  | Ok _ => FileResponse coursera_service.OUTPUT_FILE
  | Raise e => HTTPException 500 (str_exn e)
  end.

(** The answers of [GET /coursera/mapped-skills]. *)
Inductive mapped_response : Type :=
| MappedRecords (rows : list CourseMappingRow)
| MappedFile (path : string)
| MappedError (status_code : nat) (detail : string).

(** [GET /coursera/mapped-skills] *)
Definition list_coursera_mapped_skills
    (is_na : string -> bool) (str_contains : string -> string + (string -> bool))
    (to_excel : list CourseMappingRow -> result unit)
    (file : coursera_service.MappingFile)
    (remote_skill_id workday_skill lightcast_skill : option string)
    (download : bool) : mapped_response :=
  match coursera_service.list_coursera_mapped_skills is_na str_contains file
          remote_skill_id workday_skill lightcast_skill with
  | Ok df =>
      if download then
        match to_excel df with
        | Ok _ => MappedFile "uploads/coursera_mapped_filtered.xlsx"
        | Raise (ValueError m) => MappedError 404 m
        | Raise e => MappedError 500 (str_exn e)
        end
      else MappedRecords df
  | Raise (ValueError m) => MappedError 404 m
  | Raise e => MappedError 500 (str_exn e)
  end.

(** [ALLOWED_ORIGINS], from the text of the [FRONTEND_ORIGINS] variable. *)
Definition ALLOWED_ORIGINS (FRONTEND_ORIGINS : string) : list string :=
  map Py.strip
      (filter (fun origin => negb (Py.strip origin =? ""))
              (Py.split "," FRONTEND_ORIGINS)).

End main.

(* ================================================================== *)
(** ** A concrete pandas for worked examples *)
(* ================================================================== *)

Module Sample.

(** The default missing-value markers of [pd.read_csv]. *)
Definition na_values : list string :=
  [""; "#N/A"; "#N/A N/A"; "#NA"; "-1.#IND"; "-1.#QNAN"; "-NaN"; "-nan";
   "1.#IND"; "1.#QNAN"; "<NA>"; "N/A"; "NA"; "NULL"; "NaN"; "None"; "n/a";
   "nan"; "null"].

Definition is_na (s : string) : bool := Py.mem String.eqb s na_values.

(** A pattern made of letters, digits and spaces only is a regular
    expression that matches exactly its own text, so the search is the
    substring test; the worked examples use no other pattern. *)
Definition str_contains (pat : string) : string + (string -> bool) :=
  inr (Py.contains pat).

Definition row (rid workday lightcast : string) : SkillRecord :=
  mkSkill rid workday lightcast "" "" "" "SUCCESS".

Definition two_skills : Store :=
  Table [row "1" "java" "Java"; row "2" "javascript" "JavaScript"].

(** A sheet writer that accepts every frame. *)
Definition to_excel (df : DataFrame) : result unit := Ok tt.

Definition sheet_to_excel (df : list CourseMappingRow) : result unit := Ok tt.

(** The characters a worksheet cell cannot hold: the control characters
    other than tab, line feed and carriage return. *)
Definition illegal_char (c : ascii) : bool :=
  let n := nat_of_ascii c in
  ((n <=? 8) || (n =? 11) || (n =? 12) || ((14 <=? n) && (n <=? 31)))%nat.

Fixpoint has_illegal_char (s : string) : bool :=
  match s with
  | EmptyString => false
  | String c s' => illegal_char c || has_illegal_char s'
  end.

Definition cells (r : SkillRecord) : list string :=
  [remote_skill_id r; workday_skill r; lightcast_skill r;
   lightcast_skill_id r; skill_type r; category r; status r].

(** A sheet writer that refuses such a cell, with an exception that is
    not a [ValueError]. *)
Definition strict_to_excel (df : DataFrame) : result unit :=
  match find has_illegal_char (flat_map cells df) with
  | Some s => Raise (OtherError (s ++ " cannot be used in worksheets."))
  | None => Ok tt
  end.

Definition skills_list : node :=
  Tag "ul" [Tag "li" [Tag "a" [Text "Python"]];
            Tag "li" [Tag "a" [Text " Data Analysis "]];
            Tag "li" [Tag "a" [Text "Python"]];
            Tag "li" [Tag "a" [Tag "img" []]]].

Definition reviews_list : node :=
  Tag "ul" [Tag "li" [Tag "a" [Text "Zebra"]]].

(** A course page: the skills heading with its list, then another section
    with a list of its own. *)
Definition course_page : node :=
  Tag "[document]"
    [Tag "h2" [Text " Skills you'll gain "];
     skills_list;
     Tag "h2" [Text "Reviews"];
     reviews_list].

(** A page whose skills heading has no list of its own: the only list of
    the page belongs to a later section. *)
Definition page_list_elsewhere : node :=
  Tag "[document]"
    [Tag "h2" [Text "Skills you'll gain"];
     Tag "p" [Text "Coming soon."];
     Tag "h2" [Text "Reviews"];
     reviews_list].

(** A page with two headings that mention skills, each with its list. *)
Definition page_two_headings : node :=
  Tag "[document]"
    [Tag "h2" [Text "Skills you'll gain"];
     Tag "ul" [Tag "li" [Tag "a" [Text "Python"]]];
     Tag "h2" [Text "Build your skills with Plus"];
     Tag "ul" [Tag "li" [Tag "a" [Text "Pricing"]];
               Tag "li" [Tag "a" [Text "Log in"]]]].

(** A page whose skills heading is not an h2 heading. *)
Definition page_other_heading : node :=
  Tag "[document]"
    [Tag "h3" [Text "Skills"];
     Tag "ul" [Tag "li" [Tag "a" [Text "Python"]]]].

(** A crawler that knows one course for "Java", fails for "boom" and finds
    nothing else. *)
Definition fetch_courses (q : string) : result (list Course) :=
  if q =? "Java"
  then Ok [mkCourse "Intro" "intro" "https://www.coursera.org/learn/intro"
                    "OOP, Java"]
  else if q =? "boom" then Raise (OtherError "timeout")
  else Ok [].

(** URL helpers for paths that need no escaping and no normalising. *)
Definition quote_plus (s : string) : string := s.
Definition urljoin (base href : string) : string := base ++ href.

(** The links selected on a search page: the first has no slug. *)
Definition search_anchors (url : string)
  : result (list coursera_service.Anchor) :=
  Ok [coursera_service.mkAnchor "/learn/?ref=x" "Browse";
      coursera_service.mkAnchor "/learn/python-basics?ref=y" "Python Basics";
      coursera_service.mkAnchor "/learn/java" "Java"].

Definition fetch_page (url : string) : result node := Ok course_page.

End Sample.

(* ================================================================== *)
(** ** Vocabulary of the statements *)
(* ================================================================== *)

(** The rows [load_df] returns for a store file it can read; a file it
    cannot read has none. *)
Definition rows_read (is_na : string -> bool) (st : Store) : DataFrame :=
  match skill_store.load_df is_na st with
  | Ok df => df
  | Raise _ => []
  end.

(** The tests of the filters that are given, in the order the source checks
    them; [fw] and [fl] are the compiled workday and lightcast patterns. *)
Definition given_tests (a b c : option string) (fw fl : string -> bool)
  : list (SkillRecord -> bool) :=
  skill_store.when_given a [] (fun rid => [skill_store.id_mask rid])
  ++ skill_store.when_given b [] (fun _ => [fun r => fw (Py.lower (workday_skill r))])
  ++ skill_store.when_given c [] (fun _ => [fun r => fl (Py.lower (lightcast_skill r))]).

(** A row is processed when its stripped skill name is not empty. *)
Definition processed (row : lightcast_service.InputRow) : bool :=
  negb (Py.strip (lightcast_service.in_skill_name row) =? "").

(** Order-preserving deduplication as the specification words it: the
    keys are taken from left to right, a key is kept the first time it is
    met and dropped every other time. *)
Inductive first_occurrences : list string -> list string -> Prop :=
| first_nil : first_occurrences [] []
| first_new l d x :
    first_occurrences l d -> ~ In x l ->
    first_occurrences (l ++ [x]) (d ++ [x])
| first_again l d x :
    first_occurrences l d -> In x l ->
    first_occurrences (l ++ [x]) d.

(** A string that is empty or begins with a character that is not white
    space. *)
Definition starts_clean (s : string) : Prop :=
  match s with
  | EmptyString => True
  | String c _ => Py.isspace c = false
  end.

(** The course the crawl loop builds from one selected element. *)
Definition course_of (urljoin : string -> string -> string)
    (fetch_page : string -> result node)
    (a : coursera_service.Anchor) : Course :=
  let link := urljoin coursera_service.BASE_URL (coursera_service.href_of a) in
  mkCourse (coursera_service.a_text a) (coursera_service.slug_of a) link
           (coursera_service.fetch_course_skills (fetch_page link)).

(** What the selection logic guarantees about the key columns of a row:
    the search used the stripped lightcast skill when there is one and the
    stripped workday skill otherwise. *)
Definition key_selected (k : coursera_service.Key) : Prop :=
  match k with
  | [_; workday; lightcast; _; used; source] =>
      (source = "LIGHTCAST" /\ used = lightcast /\ lightcast <> "")
      \/ (source = "WORKDAY" /\ lightcast = "" /\ used = workday
          /\ workday <> "")
  | _ => False
  end.

(** The query the pass crawls for a store row, if any. *)
Definition query_of (row : SkillRecord) : option string :=
  if negb (Py.strip (lightcast_skill row) =? "")
  then Some (Py.strip (lightcast_skill row))
  else if negb (Py.strip (workday_skill row) =? "")
       then Some (Py.strip (workday_skill row))
       else None.

(** The skill extraction as the specification words it: the first heading
    whose text contains "skill", the list that immediately follows that
    heading, the texts of the links in it (stripped, the empty ones left
    out, as the crawler reads them), without repetition, sorted and joined.  A list follows immediately when nothing but white space
    stands between the end of the heading and the list. *)
Definition is_heading (n : node) : bool :=
  existsb (fun t => coursera_service.is_tag t n)
          ["h1"; "h2"; "h3"; "h4"; "h5"; "h6"].

Definition is_list (n : node) : bool :=
  coursera_service.is_tag "ul" n || coursera_service.is_tag "ol" n.

Definition is_blank_text (n : node) : bool :=
  match n with
  | Text s => Py.strip s =? ""
  | Tag _ _ => false
  end.

Fixpoint drop_blank_text (l : list node) : list node :=
  match l with
  | n :: rest => if is_blank_text n then drop_blank_text rest else l
  | [] => []
  end.

Definition list_right_after (h : coursera_service.element) : option node :=
  match drop_blank_text
          (skipn (length (coursera_service.descendants (fst h))) (snd h)) with
  | n :: _ => if is_list n then Some n else None
  | [] => None
  end.

Definition spec_course_skills (soup : node) : string :=
  let headings :=
    filter (fun e => is_heading (fst e)
                     && Py.contains "skill"
                          (Py.lower (coursera_service.get_text (fst e))))
           (coursera_service.with_next (coursera_service.descendants soup)) in
  let links :=
    match headings with
    | h :: _ =>
        match list_right_after h with
        | Some l => filter coursera_service.nonempty
                           (map coursera_service.get_text
                                (coursera_service.find_all_in "a" l))
        | None => []
        end
    | [] => []
    end in
  Py.join ", " (Py.sorted String.leb (Py.set links)).

(* ================================================================== *)
(** * Properties of the string operations *)
(* ================================================================== *)

Lemma isspace_lower_char (c : ascii) :
  Py.isspace (Py.lower_char c) = Py.isspace c.
Proof. destruct c as [[] [] [] [] [] [] [] []]; reflexivity. Qed.

Lemma lower_char_idem (c : ascii) :
  Py.lower_char (Py.lower_char c) = Py.lower_char c.
Proof. destruct c as [[] [] [] [] [] [] [] []]; reflexivity. Qed.

Lemma lower_idem (s : string) : Py.lower (Py.lower s) = Py.lower s.
Proof.
  induction s as [|c s IH]; simpl; [reflexivity|].
  now rewrite lower_char_idem, IH.
Qed.

Lemma lower_lstrip (s : string) :
  Py.lower (Py.lstrip s) = Py.lstrip (Py.lower s).
Proof.
  induction s as [|c s IH]; simpl; [reflexivity|].
  rewrite isspace_lower_char. now destruct (Py.isspace c).
Qed.

Lemma lower_rstrip (s : string) :
  Py.lower (Py.rstrip s) = Py.rstrip (Py.lower s).
Proof.
  induction s as [|c s IH]; simpl; [reflexivity|].
  rewrite <- IH, isspace_lower_char.
  destruct (Py.rstrip s); simpl; [now destruct (Py.isspace c)|reflexivity].
Qed.

Lemma lower_strip (s : string) :
  Py.lower (Py.strip s) = Py.strip (Py.lower s).
Proof. unfold Py.strip. now rewrite lower_rstrip, lower_lstrip. Qed.

Lemma lstrip_starts_clean (s : string) : starts_clean (Py.lstrip s).
Proof.
  induction s as [|c s IH]; simpl; [exact I|].
  destruct (Py.isspace c) eqn:E; [exact IH|exact E].
Qed.

Lemma lstrip_clean (s : string) : starts_clean s -> Py.lstrip s = s.
Proof. destruct s as [|c s]; simpl; [reflexivity|]. now intros ->. Qed.

Lemma rstrip_starts_clean (s : string) :
  starts_clean s -> starts_clean (Py.rstrip s).
Proof.
  destruct s as [|c s]; simpl; [exact id|]. intros H.
  destruct (Py.rstrip s); simpl; [now rewrite H|exact H].
Qed.

Lemma rstrip_idem (s : string) : Py.rstrip (Py.rstrip s) = Py.rstrip s.
Proof.
  induction s as [|c s IH]; simpl; [reflexivity|].
  destruct (Py.rstrip s) as [|d t] eqn:E.
  - destruct (Py.isspace c) eqn:Ec; simpl; [reflexivity|now rewrite Ec].
  - change (Py.rstrip (String c (String d t))) with
      (match Py.rstrip (String d t) with
       | EmptyString => if Py.isspace c then EmptyString
                        else String c EmptyString
       | u => String c u
       end).
    now rewrite IH.
Qed.

Lemma strip_idem (s : string) : Py.strip (Py.strip s) = Py.strip s.
Proof.
  unfold Py.strip.
  rewrite (lstrip_clean (Py.rstrip (Py.lstrip s))).
  - apply rstrip_idem.
  - apply rstrip_starts_clean, lstrip_starts_clean.
Qed.

(** Matching by trimmed, lower-cased text does not see the case or the
    outer white space of the value asked for. *)
Lemma strip_lower_strip (s : string) :
  Py.strip (Py.lower (Py.strip s)) = Py.strip (Py.lower s).
Proof. now rewrite lower_strip, strip_idem. Qed.

Lemma prefix_empty (s : string) : String.prefix "" s = true.
Proof. now destruct s. Qed.

Lemma prefix_rstrip (s : string) : String.prefix (Py.rstrip s) s = true.
Proof.
  induction s as [|c s IH]; [reflexivity|].
  cbn [Py.rstrip]. destruct (Py.rstrip s) as [|d t] eqn:E.
  - destruct (Py.isspace c); [reflexivity|].
    cbn [String.prefix]. destruct (ascii_dec c c); [apply prefix_empty|congruence].
  - cbn [String.prefix] in *. destruct (ascii_dec c c); [exact IH|congruence].
Qed.

Lemma contains_prefix (sub s : string) :
  String.prefix sub s = true -> Py.contains sub s = true.
Proof. intros H. destruct s; cbn [Py.contains]; now rewrite H. Qed.

Lemma contains_lstrip (sub s : string) :
  Py.contains sub (Py.lstrip s) = true -> Py.contains sub s = true.
Proof.
  induction s as [|c s IH]; [exact id|].
  cbn [Py.lstrip]. destruct (Py.isspace c); [|exact id].
  intros H. cbn [Py.contains]. rewrite (IH H). apply orb_true_r.
Qed.

(** A string contains its own trimmed text. *)
Lemma contains_strip (s : string) : Py.contains (Py.strip s) s = true.
Proof. apply contains_lstrip, contains_prefix, prefix_rstrip. Qed.

(* ================================================================== *)
(** * Properties of the skill store *)
(* ================================================================== *)

Lemma filter_twice {A} (f g : A -> bool) (l : list A) :
  filter g (filter f l) = filter (fun x => f x && g x) l.
Proof.
  induction l as [|x l IH]; simpl; [reflexivity|].
  destruct (f x); simpl; [destruct (g x)|]; now rewrite IH.
Qed.

Lemma filter_all {A} (l : list A) : filter (fun _ => true) l = l.
Proof. induction l; simpl; congruence. Qed.

Lemma existsb_false_iff {A} (f : A -> bool) (l : list A) :
  existsb f l = false <-> (forall x, In x l -> f x = false).
Proof.
  split.
  - intros H x Hx. destruct (f x) eqn:E; [|reflexivity].
    rewrite <- H. symmetry. apply existsb_exists. now exists x.
  - intros H. destruct (existsb f l) eqn:E; [|reflexivity].
    apply existsb_exists in E as (x & Hx & Hf). now rewrite (H x Hx) in Hf.
Qed.

Lemma filter_nil_iff {A} (f : A -> bool) (l : list A) :
  filter f l = [] <-> existsb f l = false.
Proof.
  induction l as [|x l IH]; simpl; [tauto|].
  destruct (f x); simpl; [split; discriminate|exact IH].
Qed.

Lemma filter_out_length_lt {A} (f : A -> bool) (l : list A) :
  existsb f l = true ->
  length (filter (fun x => negb (f x)) l) < length l.
Proof.
  induction l as [|x l IH]; simpl; [discriminate|].
  destruct (f x); simpl; intros H.
  - pose proof (filter_length_le (fun x => negb (f x)) l). lia.
  - apply IH in H. lia.
Qed.

Lemma existsb_filter {A} (f g : A -> bool) (l : list A) :
  existsb f (filter g l) = true -> existsb f l = true.
Proof.
  rewrite !existsb_exists. intros (x & Hx & Hf).
  apply filter_In in Hx as [Hx _]. now exists x.
Qed.

(** Case split on an optional argument as the source tests it. *)
Ltac case_given o :=
  let s := fresh "s" in
  destruct o as [s|]; [destruct (String.eqb_spec s "") as [->|?]|].

Section StoreFacts.

Variable is_na : string -> bool.
Variable str_contains : string -> string + (string -> bool).
Variable to_excel : DataFrame -> result unit.

Abbreviation load_df := (skill_store.load_df is_na).
Abbreviation frame := (rows_read is_na).
Abbreviation read_cell := (skill_store.read_cell is_na).
Abbreviation read_row := (skill_store.read_row is_na).
Abbreviation list_skills := (skill_store.list_skills is_na str_contains).
Abbreviation update_lightcast_skill :=
  (skill_store.update_lightcast_skill is_na to_excel).
Abbreviation delete_skill := (skill_store.delete_skill is_na to_excel).
Abbreviation get_lightcast_ready_df :=
  (skill_store.get_lightcast_ready_df is_na str_contains).
Abbreviation id_mask := skill_store.id_mask.
Abbreviation exact_mask := skill_store.exact_mask.
Abbreviation not_found := skill_store.not_found.

Lemma read_cell_idem (s : string) : read_cell (read_cell s) = read_cell s.
Proof.
  unfold skill_store.read_cell.
  destruct (is_na s) eqn:E; [now destruct (is_na "")|now rewrite E].
Qed.

Lemma read_row_idem (r : SkillRecord) : read_row (read_row r) = read_row r.
Proof.
  unfold skill_store.read_row; simpl. now rewrite !read_cell_idem.
Qed.

(** The reader fails on the file without a header line and on no other. *)
Lemma load_df_rows (st : Store) : st <> Blank -> load_df st = Ok (frame st).
Proof. destruct st; [reflexivity|congruence|reflexivity]. Qed.

Lemma load_df_blank (e : exn) (st : Store) :
  load_df st = Raise e -> st = Blank /\ e = ValueError EMPTY_DATA.
Proof. destruct st; simpl; intros [=]; auto. Qed.

Lemma store_readable (st : Store) :
  st = Blank \/ load_df st = Ok (frame st).
Proof. destruct st; auto. Qed.

Lemma frame_nonempty_readable (st : Store) : frame st <> [] -> st <> Blank.
Proof. intros H ->. now apply H. Qed.

(** Reading is idempotent: a row that was read reads as itself. *)
Lemma frame_read (st : Store) (r : SkillRecord) :
  In r (frame st) -> read_row r = r.
Proof.
  destruct st as [| |raws]; simpl; try contradiction.
  intros H. apply in_map_iff in H as (raw & <- & _). apply read_row_idem.
Qed.

Lemma ready_base_nonblank (df : DataFrame) (r : SkillRecord) :
  In r (filter (fun r => negb (Py.strip (lightcast_skill r) =? "")) df) ->
  Py.strip (lightcast_skill r) <> "".
Proof.
  intros H. apply filter_In in H as [_ H].
  apply negb_true_iff, String.eqb_neq in H. exact H.
Qed.

(** C8. Every row returned by a successful [get_lightcast_ready_df] is a
    row of the store whose lightcast_skill is neither empty nor made of
    white space only. *)
Theorem lightcast_ready_rows_nonblank
    (st : Store) (rid w : option string) (rows : DataFrame) :
  get_lightcast_ready_df st rid w = Ok rows ->
  Forall (fun r => In r (frame st)
                   /\ Py.strip (lightcast_skill r) <> ""
                   /\ lightcast_skill r <> "") rows.
Proof.
  unfold skill_store.get_lightcast_ready_df.
  destruct (store_readable st) as [->|Hread]; [discriminate|].
  rewrite Hread. cbn [bind].
  set (base := filter _ (frame st)).
  assert (Hbase : forall r, In r base ->
            In r (frame st) /\ Py.strip (lightcast_skill r) <> ""
            /\ lightcast_skill r <> "").
  { intros r Hr. pose proof (ready_base_nonblank _ r Hr) as Hs.
    apply filter_In in Hr as [Hin _]. repeat split; auto.
    intros E. apply Hs. now rewrite E. }
  clearbody base. destruct base as [|r0 base0]; [discriminate|].
  set (b := r0 :: base0) in *. clearbody b.
  intros H. apply Forall_forall. intros r Hr. apply Hbase.
  destruct rid as [[|? ?]|]; destruct w as [[|? ?]|];
    unfold skill_store.contains_mask in H; simpl in H;
    repeat match type of H with
      | context [str_contains ?p] => destruct (str_contains p); simpl in H
      | context [if ?c then _ else _] => destruct c; simpl in H
      end;
    try discriminate; injection H as <-;
    repeat match goal with
      | Hr : In _ (filter _ _) |- _ => apply filter_In in Hr as [Hr _]
      end; assumption.
Qed.

(** C9. On a store with at least one row, none of which has a trimmed,
    lower-cased workday_skill equal to that of [w], [delete_skill] with
    the workday_skill selector alone raises a [ValueError] and leaves the
    store file as it was; for a non-empty [w] it is the not-found error. *)
Theorem delete_unknown_workday_skill (st : Store) (w : string) :
  frame st <> [] ->
  (forall r, In r (frame st) ->
     Py.strip (Py.lower (workday_skill r)) <> Py.strip (Py.lower w)) ->
  exists msg,
    delete_skill st None (Some w) = (st, Raise (ValueError msg))
    /\ (w <> "" -> msg = "workday_skill '" ++ w ++ "' not found").
Proof.
  intros Hne Hno.
  assert (E : existsb (exact_mask w) (frame st) = false).
  { apply existsb_false_iff. intros r Hr. apply String.eqb_neq. auto. }
  unfold skill_store.delete_skill. destruct w as [|c w]; simpl.
  - eexists; split; [reflexivity|]. intros H; now elim H.
  - rewrite (load_df_rows st (frame_nonempty_readable st Hne)), E. simpl.
    eexists; split; [reflexivity|]. reflexivity.
Qed.

Lemma list_skills_missing_filter (st : Store) (a b c : option string)
    (fw fl : string -> bool) :
  st <> Blank ->
  (forall w, b = Some w -> w <> "" -> str_contains (Py.lower w) = inr fw) ->
  (forall l, c = Some l -> l <> "" -> str_contains (Py.lower l) = inr fl) ->
  (exists t, In t (given_tests a b c fw fl)
             /\ forall r, In r (frame st) -> t r = false) ->
  exists column value, list_skills st a b c = Raise (not_found column value).
Proof.
  intros Hst Hw Hl (t & Ht & Hmiss).
  apply existsb_false_iff in Hmiss.
  unfold skill_store.list_skills. rewrite (load_df_rows st Hst). cbn [bind].
  set (df := frame st) in *. clearbody df.
  unfold given_tests, skill_store.contains_mask, skill_store.when_given in *.
  case_given a; case_given b; case_given c; simpl in *;
    try rewrite (Hw _ eq_refl ltac:(assumption));
    try rewrite (Hl _ eq_refl ltac:(assumption)); simpl;
    repeat match goal with
      | |- context [existsb ?f ?l] =>
          let E := fresh "E" in destruct (existsb f l) eqn:E; simpl
      end;
    try (eexists _, _; reflexivity);
    repeat match goal with
      | H : _ \/ _ |- _ => destruct H
      | H : False |- _ => destruct H
      end; subst; congruence.
Qed.

Lemma list_skills_all_present (st : Store) (a b c : option string)
    (fw fl : string -> bool) :
  st <> Blank ->
  (forall w, b = Some w -> w <> "" -> str_contains (Py.lower w) = inr fw) ->
  (forall l, c = Some l -> l <> "" -> str_contains (Py.lower l) = inr fl) ->
  (forall t, In t (given_tests a b c fw fl) ->
             exists r, In r (frame st) /\ t r = true) ->
  list_skills st a b c =
    Ok (filter (fun r => forallb (fun t => t r) (given_tests a b c fw fl))
               (frame st)).
Proof.
  intros Hst Hw Hl Hall.
  assert (Hex : forall t, In t (given_tests a b c fw fl) ->
                          existsb t (frame st) = true).
  { intros t Ht. apply existsb_exists. auto. }
  clear Hall.
  unfold skill_store.list_skills. rewrite (load_df_rows st Hst). cbn [bind].
  set (df := frame st) in *. clearbody df.
  unfold given_tests, skill_store.contains_mask, skill_store.when_given in *.
  case_given a; case_given b; case_given c; simpl in *;
    try rewrite (Hw _ eq_refl ltac:(assumption));
    try rewrite (Hl _ eq_refl ltac:(assumption)); simpl;
    repeat match goal with
      | |- context [negb (existsb ?f ?l)] =>
          rewrite (Hex f ltac:(auto)); simpl
      end;
    f_equal; rewrite ?filter_twice;
    solve [ symmetry; apply filter_all
          | apply filter_ext; intros r;
            now rewrite ?andb_true_r, ?andb_assoc ].
Qed.

(** C1 (amended). Validation is per filter and selection is conjunctive:
    on a store file the reader accepts, and when the given patterns
    compile, [list_skills] raises a not-found [ValueError] as soon as one
    given filter, taken alone, matches no row of the store; when every
    given filter matches some row, it returns the rows that pass all the
    given filters, a list that may be empty. *)
Theorem list_skills_validates_each_filter (st : Store) (a b c : option string)
    (fw fl : string -> bool) :
  st <> Blank ->
  (forall w, b = Some w -> w <> "" -> str_contains (Py.lower w) = inr fw) ->
  (forall l, c = Some l -> l <> "" -> str_contains (Py.lower l) = inr fl) ->
  ((exists t, In t (given_tests a b c fw fl)
              /\ forall r, In r (frame st) -> t r = false) ->
   exists column value, list_skills st a b c = Raise (not_found column value))
  /\
  ((forall t, In t (given_tests a b c fw fl) ->
              exists r, In r (frame st) /\ t r = true) ->
   list_skills st a b c =
     Ok (filter (fun r => forallb (fun t => t r) (given_tests a b c fw fl))
                (frame st))).
Proof.
  intros Hst Hw Hl. split.
  - now apply list_skills_missing_filter.
  - now apply list_skills_all_present.
Qed.

Lemma list_skills_incl (st : Store) (a b c : option string) (rows : DataFrame) :
  list_skills st a b c = Ok rows -> incl rows (frame st).
Proof.
  unfold skill_store.list_skills.
  destruct (store_readable st) as [->|Hread]; [discriminate|].
  rewrite Hread. cbn [bind]. set (df := frame st) in *. clearbody df.
  unfold skill_store.contains_mask, skill_store.when_given.
  intros H r Hr.
  case_given a; case_given b; case_given c; simpl in H;
    repeat match type of H with
      | context [str_contains ?p] => destruct (str_contains p); simpl in H
      | context [if ?c then _ else _] => destruct c; simpl in H
      end;
    try discriminate; injection H as <-;
    repeat match goal with
      | Hr : In _ (filter _ _) |- _ => apply filter_In in Hr as [Hr _]
      end; assumption.
Qed.

(** Reading back a row written by [update_lightcast_skill]. *)
Lemma read_updated_row (w v : string) (r0 : SkillRecord) :
  read_row r0 = r0 ->
  let r1 := read_row (if exact_mask w r0
                      then set_lightcast_skill v r0 else r0) in
  exact_mask w r1 = exact_mask w r0
  /\ (exact_mask w r0 = true -> lightcast_skill r1 = read_cell v)
  /\ (exact_mask w r0 = false -> r1 = r0).
Proof.
  intros Hr. cbn zeta.
  pose proof (f_equal workday_skill Hr) as Hw.
  cbn [workday_skill skill_store.read_row] in Hw.
  destruct (exact_mask w r0) eqn:E.
  - unfold skill_store.exact_mask in *.
    cbn [workday_skill lightcast_skill skill_store.read_row
         set_lightcast_skill].
    rewrite Hw, E. repeat split; auto. discriminate.
  - rewrite Hr, E. repeat split; auto. discriminate.
Qed.

(** What a successful [update_lightcast_skill] leaves in the file. *)
Lemma update_store (st st' : Store) (w v : string) :
  update_lightcast_skill st w v = (st', Ok tt) ->
  existsb (exact_mask w) (frame st) = true
  /\ frame st' =
       map (fun r => read_row (if exact_mask w r
                               then set_lightcast_skill v r else r))
           (frame st).
Proof.
  unfold skill_store.update_lightcast_skill, skill_store.save_df.
  destruct (store_readable st) as [->|Hread]; [discriminate|].
  rewrite Hread.
  destruct (existsb _ _) eqn:E; simpl; [|discriminate].
  intros [= <- _]. split; [reflexivity|].
  unfold rows_read at 1, skill_store.loc_set_lightcast. simpl.
  apply map_map.
Qed.

Lemma update_rows (st st' : Store) (w v : string) :
  update_lightcast_skill st w v = (st', Ok tt) ->
  (exists r, In r (frame st') /\ exact_mask w r = true)
  /\ (forall r, In r (frame st') -> exact_mask w r = true ->
        lightcast_skill r = read_cell v)
  /\ (forall r, In r (frame st') -> exact_mask w r = false ->
        In r (frame st)).
Proof.
  intros H. apply update_store in H as [E ->].
  split; [|split].
  - apply existsb_exists in E as (r0 & Hr0 & Hm).
    destruct (read_updated_row w v r0 (frame_read st r0 Hr0)) as (Hsame & _).
    eexists. split; [apply in_map; exact Hr0|].
    cbn beta. now rewrite Hsame.
  - intros r Hr Hm. apply in_map_iff in Hr as (r0 & <- & Hr0).
    destruct (read_updated_row w v r0 (frame_read st r0 Hr0)) as (Hsame & Hv & _).
    apply Hv. now rewrite <- Hsame.
  - intros r Hr Hm. apply in_map_iff in Hr as (r0 & <- & Hr0).
    destruct (read_updated_row w v r0 (frame_read st r0 Hr0))
      as (Hsame & _ & Hkeep).
    cbn zeta in *. rewrite Hsame in Hm. now rewrite (Hkeep Hm).
Qed.

(** A row whose trimmed, lower-cased workday_skill is that of a trimmed
    [w] contains [w] without regard to case. *)
Lemma exact_contains (w : string) (r : SkillRecord) :
  Py.strip w = w -> exact_mask w r = true ->
  Py.contains (Py.lower w) (Py.lower (workday_skill r)) = true.
Proof.
  unfold skill_store.exact_mask. intros Hw H.
  apply String.eqb_eq in H.
  rewrite <- (lower_strip w), Hw in H. rewrite <- H. apply contains_strip.
Qed.

(** C2 (amended). After a successful [update_lightcast_skill st w v] the
    store holds at least one row whose trimmed, lower-cased workday_skill
    equals that of [w]; every such row has lightcast_skill equal to [v] as
    the reader returns it, and every other row of the store is a row that
    was there before.  When moreover [w] has no white space around it and
    its lower-cased text compiles to a pattern found wherever that text
    occurs literally, the [list_skills] call filtered by the same [w]
    succeeds, returns rows of the store only, and among them every row
    that matches [w] exactly; there is at least one, and each carries the
    new value. *)
Theorem update_then_list_exact_rows (st st' : Store) (w v : string)
    (t : string -> bool) :
  update_lightcast_skill st w v = (st', Ok tt) ->
  ((exists r, In r (frame st') /\ exact_mask w r = true)
   /\ (forall r, In r (frame st') -> exact_mask w r = true ->
         lightcast_skill r = read_cell v)
   /\ (forall r, In r (frame st') -> exact_mask w r = false ->
         In r (frame st)))
  /\
  (Py.strip w = w ->
   (w <> "" -> str_contains (Py.lower w) = inr t) ->
   (forall s, Py.contains (Py.lower w) s = true -> t s = true) ->
   exists rows,
     list_skills st' None (Some w) None = Ok rows
     /\ (forall r, In r rows -> In r (frame st'))
     /\ (forall r, In r (frame st') -> exact_mask w r = true -> In r rows)
     /\ (exists r, In r rows /\ exact_mask w r = true
                   /\ lightcast_skill r = read_cell v)
     /\ (forall r, In r rows -> exact_mask w r = true ->
           lightcast_skill r = read_cell v)).
Proof.
  intros H. pose proof (update_rows st st' w v H) as Hrows.
  split; [exact Hrows|].
  destruct Hrows as ((r1 & Hr1 & Hm1) & Hset & _).
  intros Hw Hc Hlit.
  assert (Hst' : st' <> Blank).
  { unfold skill_store.update_lightcast_skill, skill_store.save_df in H.
    destruct (load_df st); [|intros ->; discriminate].
    destruct (negb _); intros ->; discriminate. }
  assert (Hall : forall r, exact_mask w r = true ->
                   t (Py.lower (workday_skill r)) = true).
  { intros r Hm. apply Hlit. now apply exact_contains. }
  assert (Hlist : exists rows, list_skills st' None (Some w) None = Ok rows
            /\ forall r, In r (frame st') -> exact_mask w r = true ->
                 In r rows).
  { unfold skill_store.list_skills. rewrite (load_df_rows st' Hst').
    cbn [bind]. unfold skill_store.when_given, skill_store.contains_mask.
    destruct (String.eqb_spec w "") as [->|Hne]; simpl.
    - eexists. split; [reflexivity|]. auto.
    - rewrite (Hc Hne). simpl.
      assert (E : existsb (fun r => t (Py.lower (workday_skill r)))
                    (frame st') = true).
      { apply existsb_exists. exists r1. auto. }
      rewrite E. simpl. eexists. split; [reflexivity|].
      intros r Hr Hm. apply filter_In. auto. }
  destruct Hlist as (rows & Hl & Hin).
  exists rows. split; [exact Hl|].
  pose proof (list_skills_incl _ _ _ _ _ Hl) as Hincl.
  split; [exact Hincl|]. split; [exact Hin|]. split.
  - exists r1. auto.
  - intros r Hr Hm. apply Hset; auto.
Qed.

(** C5 (amended). [delete_skill] needs at least one selector.  With none it
    raises.  When remote_skill_id is given it is the selector applied,
    trimmed and exact, whether or not workday_skill is given too; when only
    workday_skill is given it is applied trimmed, lower-cased and exact.  The
    selector applied raises not-found and leaves the file alone when it
    matches no row of a file the reader accepts, and otherwise the file is
    rewritten without the matching rows and the sheet written from them. *)
Theorem delete_skill_selector_applied (st : Store) (rid w : option string) :
  (Py.truthy rid = false -> Py.truthy w = false ->
   delete_skill st rid w =
     (st, Raise (ValueError
                   "Either remote_skill_id or workday_skill must be provided")))
  /\
  (forall i, rid = Some i -> i <> "" ->
     (st <> Blank -> (forall r, In r (frame st) -> id_mask i r = false) ->
      delete_skill st rid w = (st, Raise (not_found "remote_skill_id" i)))
     /\
     ((exists r, In r (frame st) /\ id_mask i r = true) ->
      delete_skill st rid w =
        (Table (filter (fun r => negb (id_mask i r)) (frame st)),
         to_excel (filter (fun r => negb (id_mask i r)) (frame st)))))
  /\
  (forall v, Py.truthy rid = false -> w = Some v -> v <> "" ->
     (st <> Blank -> (forall r, In r (frame st) -> exact_mask v r = false) ->
      delete_skill st rid w = (st, Raise (not_found "workday_skill" v)))
     /\
     ((exists r, In r (frame st) /\ exact_mask v r = true) ->
      delete_skill st rid w =
        (Table (filter (fun r => negb (exact_mask v r)) (frame st)),
         to_excel (filter (fun r => negb (exact_mask v r)) (frame st))))).
Proof.
  assert (Hex : forall f, (exists r, In r (frame st) /\ f r = true) ->
            load_df st = Ok (frame st) /\ existsb f (frame st) = true).
  { intros f Hf. split; [|now apply existsb_exists].
    apply load_df_rows, frame_nonempty_readable.
    destruct Hf as (r & Hr & _). intros E. now rewrite E in Hr. }
  unfold skill_store.delete_skill, skill_store.when_given, Py.truthy,
    skill_store.save_df.
  split; [|split].
  - intros -> ->. reflexivity.
  - intros i -> Hi. apply String.eqb_neq in Hi. rewrite Hi. simpl. split.
    + intros Hst Hno. apply existsb_false_iff in Hno.
      now rewrite (load_df_rows st Hst), Hno.
    + intros Hsome. destruct (Hex _ Hsome) as [-> ->]. reflexivity.
  - intros v Hrid -> Hv. apply String.eqb_neq in Hv. rewrite Hv.
    assert (Hskip : match rid with
                    | Some s => s =? ""
                    | None => true
                    end = true).
    { destruct rid as [s|]; [|reflexivity]. now apply negb_false_iff. }
    rewrite Hrid. simpl. split.
    + intros Hst Hno. apply existsb_false_iff in Hno.
      rewrite (load_df_rows st Hst).
      destruct rid as [s|]; [rewrite Hskip|]; simpl; now rewrite Hno.
    + intros Hsome. destruct (Hex _ Hsome) as [-> E].
      destruct rid as [s|]; [rewrite Hskip|]; simpl; now rewrite E.
Qed.

End StoreFacts.

(** C10 (failing case). With no filter given [list_skills] returns the
    empty list for an absent file and every stored row, as read, for a
    file with a header line.  A normalisation pass that processes no row
    (an upload without rows, or whose skill names are all blank) writes
    the file from a frame without columns, so without a header line; on
    that file the reader raises, [list_skills] raises with it, and
    [GET /skills] answers 500. *)
Theorem list_skills_headerless_store_raises
    (is_na : string -> bool)
    (str_contains : string -> string + (string -> bool))
    (search : nat -> string -> option (list lightcast_service.Hit))
    (to_excel : DataFrame -> result unit)
    (st : Store) (token : string) :
  skill_store.list_skills is_na str_contains Absent None None None = Ok []
  /\ (forall rows,
        skill_store.list_skills is_na str_contains (Table rows) None None None
        = Ok (map (skill_store.read_row is_na) rows))
  /\ lightcast_service.normalize_file search to_excel st (Ok token) ".csv" []
     = (Blank, to_excel [])
  /\ lightcast_service.normalize_file search to_excel st (Ok token) ".csv"
       [lightcast_service.mkInput "7" "  "]
     = (Blank, to_excel [])
  /\ skill_store.list_skills is_na str_contains Blank None None None
     = Raise (ValueError EMPTY_DATA)
  /\ main.list_skills is_na str_contains Blank None None None
     = main.HTTPException 500 EMPTY_DATA.
Proof. repeat split. Qed.

(** ** Worked cases on a two-row store *)

(** The lightcast-ready listing filtered by an id with blanks around it. *)
Lemma lightcast_ready_rows_nonblank_witness :
  skill_store.get_lightcast_ready_df Sample.is_na Sample.str_contains
    Sample.two_skills (Some " 1 ") None = Ok [Sample.row "1" "java" "Java"]
  /\ Forall (fun r => In r (rows_read Sample.is_na Sample.two_skills)
                      /\ Py.strip (lightcast_skill r) <> ""
                      /\ lightcast_skill r <> "")
            [Sample.row "1" "java" "Java"].
Proof.
  split; [reflexivity|].
  apply (lightcast_ready_rows_nonblank Sample.is_na Sample.str_contains
           Sample.two_skills (Some " 1 ") None).
  reflexivity.
Defined.

(** Deleting a workday skill that no row has. *)
Lemma delete_unknown_workday_skill_witness :
  exists msg,
    skill_store.delete_skill Sample.is_na Sample.to_excel Sample.two_skills
      None (Some "nonexistent") = (Sample.two_skills, Raise (ValueError msg))
    /\ ("nonexistent" <> "" -> msg = "workday_skill 'nonexistent' not found").
Proof.
  apply (delete_unknown_workday_skill Sample.is_na Sample.to_excel
           Sample.two_skills "nonexistent").
  - simpl. discriminate.
  - intros r [<-|[<-|[]]]; vm_compute; discriminate.
Defined.

(** C1 (counterexample). Two filters that each match a row, but no common
    row: the conjunction selects nothing, and [list_skills] returns the
    empty list instead of raising. *)
Lemma list_skills_disjoint_filters_return_empty :
  filter (fun r => skill_store.id_mask "1" r
                   && Py.contains (Py.lower "javascript")
                                  (Py.lower (workday_skill r)))
         (rows_read Sample.is_na Sample.two_skills) = []
  /\ skill_store.list_skills Sample.is_na Sample.str_contains
       Sample.two_skills (Some "1") (Some "javascript") None = Ok []
  /\ ~ (exists e, skill_store.list_skills Sample.is_na Sample.str_contains
          Sample.two_skills (Some "1") (Some "javascript") None = Raise e).
Proof.
  repeat split. intros [e H]. vm_compute in H. discriminate.
Qed.

(** One filter that matches nothing, then two filters that share a row. *)
Lemma list_skills_validates_each_filter_witness :
  (exists column value,
     skill_store.list_skills Sample.is_na Sample.str_contains
       Sample.two_skills (Some "2") (Some "python") None
     = Raise (skill_store.not_found column value))
  /\ skill_store.list_skills Sample.is_na Sample.str_contains
       Sample.two_skills (Some "2") (Some "Script") None
     = Ok [Sample.row "2" "javascript" "JavaScript"].
Proof.
  split.
  - apply (list_skills_validates_each_filter Sample.is_na Sample.str_contains
             Sample.two_skills (Some "2") (Some "python") None
             (Py.contains "python") (fun _ => false)).
    + discriminate.
    + intros w [= <-] _. reflexivity.
    + intros l [=].
    + exists (fun r => Py.contains "python" (Py.lower (workday_skill r))).
      split; [simpl; auto|].
      intros r [<-|[<-|[]]]; reflexivity.
  - rewrite (proj2 (list_skills_validates_each_filter Sample.is_na
             Sample.str_contains Sample.two_skills (Some "2") (Some "Script")
             None (Py.contains "script") (fun _ => false)
             ltac:(discriminate)
             ltac:(intros w [= <-] _; reflexivity) ltac:(intros l [=]))).
    + reflexivity.
    + intros t [<-|[<-|[]]];
        exists (Sample.row "2" "javascript" "JavaScript");
        (split; [simpl; auto | reflexivity]).
Defined.

(** C2 (counterexample). After [update("java", "X")] the list filtered by
    "java" also returns the javascript row, whose lightcast_skill is not the
    new value.  And after [update(" java ", "X")], which matches the java
    row by its trimmed text, the list filtered by " java " returns nothing:
    no workday_skill contains the blanks, and it raises not-found. *)
Lemma update_then_list_returns_other_rows :
  (exists st' rows r,
     skill_store.update_lightcast_skill Sample.is_na Sample.to_excel
       Sample.two_skills "java" "X" = (st', Ok tt)
     /\ skill_store.list_skills Sample.is_na Sample.str_contains st'
          None (Some "java") None = Ok rows
     /\ In r rows
     /\ lightcast_skill r <> "X")
  /\
  (exists st',
     skill_store.update_lightcast_skill Sample.is_na Sample.to_excel
       Sample.two_skills " java " "X" = (st', Ok tt)
     /\ skill_store.list_skills Sample.is_na Sample.str_contains st'
          None (Some " java ") None
        = Raise (skill_store.not_found "workday_skill" " java ")).
Proof.
  split.
  - eexists _, _, (Sample.row "2" "javascript" "JavaScript").
    split; [reflexivity|]. split; [reflexivity|].
    split; [simpl; auto | discriminate].
  - eexists. split; reflexivity.
Qed.

(** The row that matches exactly is listed and carries the new value. *)
Lemma update_then_list_exact_rows_witness :
  skill_store.update_lightcast_skill Sample.is_na Sample.to_excel
    Sample.two_skills "JAVA" "X"
  = (Table [Sample.row "1" "java" "X";
            Sample.row "2" "javascript" "JavaScript"], Ok tt)
  /\ exists rows,
       skill_store.list_skills Sample.is_na Sample.str_contains
         (Table [Sample.row "1" "java" "X";
                 Sample.row "2" "javascript" "JavaScript"])
         None (Some "JAVA") None = Ok rows
       /\ In (Sample.row "1" "java" "X") rows
       /\ exists r, In r rows /\ skill_store.exact_mask "JAVA" r = true
                    /\ lightcast_skill r = skill_store.read_cell Sample.is_na "X".
Proof.
  split; [reflexivity|].
  destruct (update_then_list_exact_rows Sample.is_na Sample.str_contains
              Sample.to_excel Sample.two_skills
              (Table [Sample.row "1" "java" "X";
                      Sample.row "2" "javascript" "JavaScript"])
              "JAVA" "X" (Py.contains "java") eq_refl) as [_ Hlist].
  destruct (Hlist eq_refl (fun _ => eq_refl) (fun s H => H))
    as (rows & Hl & _ & Hin & Hex & _).
  exists rows. split; [exact Hl|]. split; [|exact Hex].
  apply Hin; [simpl; auto | reflexivity].
Defined.

(** C5 (counterexample). With both selectors given [delete_skill] raises
    nothing: it deletes by remote_skill_id and saves. *)
Lemma delete_skill_both_selectors_succeeds :
  skill_store.delete_skill Sample.is_na Sample.to_excel Sample.two_skills
    (Some "1") (Some "javascript")
  = (Table [Sample.row "2" "javascript" "JavaScript"], Ok tt)
  /\ ~ (exists e, snd (skill_store.delete_skill Sample.is_na Sample.to_excel
                         Sample.two_skills
                         (Some "1") (Some "javascript")) = Raise e).
Proof.
  split; [reflexivity|]. intros [e H]. vm_compute in H. discriminate.
Qed.

(** An empty remote_skill_id counts as not given. *)
Lemma delete_skill_selector_applied_witness :
  skill_store.delete_skill Sample.is_na Sample.to_excel Sample.two_skills
    (Some "") (Some " JAVA ")
  = (Table [Sample.row "2" "javascript" "JavaScript"], Ok tt).
Proof.
  destruct (delete_skill_selector_applied Sample.is_na Sample.to_excel
              Sample.two_skills (Some "") (Some " JAVA ")) as (_ & _ & H).
  destruct (H " JAVA " eq_refl eq_refl ltac:(discriminate)) as [_ Hdel].
  rewrite Hdel; [reflexivity|].
  exists (Sample.row "1" "java" "Java"). split; [simpl; auto | reflexivity].
Defined.

(* ================================================================== *)
(** * Properties of the HTTP handlers *)
(* ================================================================== *)

(** C4. A not-found failure of the store reaches the caller of
    [GET /skills] as status 500 with the message as body, while the same
    kind of failure on [PUT /skills/update], [DELETE /skills/delete] and
    [GET /skills/lightcast-ready] is answered with 404 or 400.  The two
    [POST /process/...] handlers answer their validation failures with 500
    as well. *)
Theorem list_skills_not_found_is_500 :
  main.list_skills Sample.is_na Sample.str_contains Sample.two_skills
    (Some "zzz") None None
  = main.HTTPException 500 "remote_skill_id 'zzz' not found"
  /\ snd (main.update_skill Sample.is_na Sample.to_excel Sample.two_skills
            "zzz" "X")
     = main.HTTPException 404 "Workday skill not found"
  /\ snd (main.delete_skill Sample.is_na Sample.to_excel Sample.two_skills
            (Some "zzz") None)
     = main.HTTPException 400 "remote_skill_id 'zzz' not found"
  /\ main.list_lightcast_ready_skills Sample.is_na Sample.str_contains
       Sample.to_excel Sample.two_skills (Some "zzz") None false
     = main.HTTPException 404
         "remote_skill_id 'zzz' not found in lightcast-ready records"
  /\ main.process_coursera (fun _ => Ok []) Sample.is_na
       Sample.sheet_to_excel Absent
     = main.HTTPException 500 "normalized_skills.csv not found"
  /\ snd (main.process_lightcast (fun _ _ => Some []) Sample.to_excel
            Sample.two_skills (Ok "token") ".txt" [])
     = main.HTTPException 500 "Unsupported file format. Upload CSV or Excel.".
Proof. repeat split. Qed.

(* ================================================================== *)
(** * Properties of the normalisation pass *)
(* ================================================================== *)

Section NormalizeFacts.

Variable search : nat -> string -> option (list lightcast_service.Hit).
Variable to_excel : DataFrame -> result unit.

Abbreviation lookup := (lightcast_service.lookup search).
Abbreviation normalize_rows := (lightcast_service.normalize_rows search).
Abbreviation normalize_file :=
  (lightcast_service.normalize_file search to_excel).

Lemma normalize_rows_acc (df : list lightcast_service.InputRow) :
  forall i results,
    normalize_rows i df results = (results ++ normalize_rows i df [])%list.
Proof.
  induction df as [|row rest IH]; intros i results; simpl.
  - now rewrite app_nil_r.
  - destruct (_ =? _).
    + apply IH.
    + rewrite (IH (S i) (results ++ _)%list), (IH (S i) [_]).
      now rewrite <- app_assoc.
Qed.

Lemma normalize_rows_nth (df : list lightcast_service.InputRow) :
  forall i k row,
    nth_error df k = Some row -> processed row = true ->
    nth_error (normalize_rows i df [])
              (length (filter processed (firstn k df)))
    = Some (lookup (i + k) row (Py.strip (lightcast_service.in_skill_name row))).
Proof.
  induction df as [|row0 rest IH]; intros i k row Hk Hp.
  - destruct k; discriminate.
  - destruct k as [|k]; simpl in Hk.
    + injection Hk as ->. simpl. unfold processed in Hp.
      apply negb_true_iff in Hp. rewrite Hp, Nat.add_0_r.
      now rewrite normalize_rows_acc.
    + simpl. unfold processed at 1.
      destruct (_ =? _) eqn:E; simpl.
      * rewrite (IH (S i) k row Hk Hp). f_equal. f_equal. lia.
      * rewrite normalize_rows_acc. simpl.
        rewrite (IH (S i) k row Hk Hp). f_equal. f_equal. lia.
Qed.

(** C6. For every row of a supported upload whose stripped skill name is
    not empty, the file written by [normalize_file], and the frame handed
    to the sheet writer after it, hold, at the row's rank among the
    processed rows, a record carrying the row's remote_skill_id
    and stripped name, with status NO_MATCH and empty canonical fields when
    the search returned no result, ERROR and empty canonical fields when the
    request failed, and SUCCESS with the first result's name and id copied
    as they are when the search returned results. *)
Theorem normalize_file_record_status
    (st : Store) (token suffix : string)
    (df : list lightcast_service.InputRow)
    (k : nat) (row : lightcast_service.InputRow) :
  lightcast_service.supported suffix = true ->
  nth_error df k = Some row ->
  Py.strip (lightcast_service.in_skill_name row) <> "" ->
  exists stored r,
    normalize_file st (Ok token) suffix df = (Table stored, to_excel stored)
    /\ nth_error stored (length (filter processed (firstn k df))) = Some r
    /\ remote_skill_id r = lightcast_service.in_remote_skill_id row
    /\ workday_skill r = Py.strip (lightcast_service.in_skill_name row)
    /\ (search k (workday_skill r) = Some [] ->
        status r = "NO_MATCH"
        /\ lightcast_skill r = "" /\ lightcast_skill_id r = ""
        /\ skill_type r = "" /\ category r = "")
    /\ (search k (workday_skill r) = None ->
        status r = "ERROR"
        /\ lightcast_skill r = "" /\ lightcast_skill_id r = ""
        /\ skill_type r = "" /\ category r = "")
    /\ (forall s rest name id,
          search k (workday_skill r) = Some (s :: rest) ->
          lightcast_service.hit_name s = Some name ->
          lightcast_service.hit_id s = Some id ->
          status r = "SUCCESS"
          /\ lightcast_skill r = name /\ lightcast_skill_id r = id).
Proof.
  intros Hs Hk Hne.
  assert (Hp : processed row = true).
  { unfold processed. now apply negb_true_iff, String.eqb_neq. }
  unfold lightcast_service.normalize_file. rewrite Hs.
  pose proof (normalize_rows_nth df 0 k row Hk Hp) as Hnth.
  cbn zeta.
  destruct (normalize_rows 0 df []) as [|r0 stored0] eqn:Erows;
    [now destruct (length (filter processed (firstn k df)))|].
  eexists _, _. split; [reflexivity|].
  split; [exact Hnth|].
  simpl (0 + k). unfold lightcast_service.lookup.
  set (skill := Py.strip _).
  destruct (search k skill) as [[|s rest]|] eqn:E; simpl.
  - rewrite E. repeat split; try discriminate.
  - destruct (lightcast_service.hit_name s) as [name|] eqn:En;
      destruct (lightcast_service.hit_id s) as [id|] eqn:Ei; simpl; rewrite E;
      repeat split; intros; congruence.
  - rewrite E. repeat split; try discriminate.
Qed.

End NormalizeFacts.

(** The example of the specification: row 42, "python programming". *)
Lemma normalize_file_record_status_witness :
  exists stored,
    lightcast_service.normalize_file
      (fun _ q => if q =? "python programming"
                  then Some [lightcast_service.mkHit
                               (Some "Python (Programming Language)")
                               (Some "KS1200364C9C1LK3V5Q1") None None]
                  else Some [])
      Sample.to_excel Absent (Ok "token") ".CSV"
      [lightcast_service.mkInput "41" "  ";
       lightcast_service.mkInput "42" " python programming "]
    = (Table stored, Ok tt)
    /\ nth_error stored 0
       = Some (mkSkill "42" "python programming"
                 "Python (Programming Language)" "KS1200364C9C1LK3V5Q1"
                 "" "" "SUCCESS").
Proof.
  destruct (normalize_file_record_status
              (fun _ q => if q =? "python programming"
                          then Some [lightcast_service.mkHit
                                       (Some "Python (Programming Language)")
                                       (Some "KS1200364C9C1LK3V5Q1") None None]
                          else Some [])
              Sample.to_excel Absent "token" ".CSV"
              [lightcast_service.mkInput "41" "  ";
               lightcast_service.mkInput "42" " python programming "]
              1 (lightcast_service.mkInput "42" " python programming ")
              eq_refl eq_refl ltac:(vm_compute; discriminate))
    as (stored & r & Hfile & Hnth & _).
  exists stored. split; [exact Hfile|].
  vm_compute in Hfile. injection Hfile as <-. reflexivity.
Defined.

(* ================================================================== *)
(** * Properties of [dict.fromkeys] and [sorted] *)
(* ================================================================== *)

Section FromkeysFacts.

Context {A : Type} (eqb : A -> A -> bool).
Hypothesis eqb_eq : forall a b, eqb a b = true <-> a = b.

Lemma mem_In (x : A) (l : list A) : Py.mem eqb x l = true <-> In x l.
Proof.
  unfold Py.mem. rewrite existsb_exists. split.
  - intros (y & Hy & E). apply eqb_eq in E. now subst.
  - intros H. exists x. split; [exact H|]. now apply eqb_eq.
Qed.

Lemma fromkeys_from_In (l : list A) :
  forall seen x,
    In x (Py.fromkeys_from eqb seen l) <-> In x l /\ ~ In x seen.
Proof.
  induction l as [|y t IH]; intros seen x; simpl.
  - tauto.
  - destruct (Py.mem eqb y seen) eqn:E.
    + apply mem_In in E. rewrite IH. split.
      * tauto.
      * intros [[->|H] Hn]; tauto.
    + assert (Hy : ~ In y seen).
      { intros H. apply mem_In in H. congruence. }
      simpl. rewrite IH. simpl. split.
      * intros [->|[H Hn]]; tauto.
      * intros [[->|H] Hn]; [now left|].
        destruct (eqb y x) eqn:Eyx.
        -- apply eqb_eq in Eyx. now left.
        -- right. split; [exact H|]. intros [->|Hs]; [|tauto].
           assert (eqb x x = true) by now apply eqb_eq. congruence.
Qed.

Lemma fromkeys_from_NoDup (l : list A) :
  forall seen, NoDup (Py.fromkeys_from eqb seen l).
Proof.
  induction l as [|y t IH]; intros seen; simpl.
  - constructor.
  - destruct (Py.mem eqb y seen); [apply IH|].
    constructor; [|apply IH].
    rewrite fromkeys_from_In. simpl. tauto.
Qed.

Lemma fromkeys_by_In (l : list A) (x : A) :
  In x (Py.fromkeys_by eqb l) <-> In x l.
Proof. unfold Py.fromkeys_by. rewrite fromkeys_from_In. simpl. tauto. Qed.

Lemma fromkeys_by_NoDup (l : list A) : NoDup (Py.fromkeys_by eqb l).
Proof. apply fromkeys_from_NoDup. Qed.

(** Adding a key at the end: it is appended when it is new and dropped
    when it was met before. *)
Lemma fromkeys_from_snoc (l : list A) :
  forall seen x,
    Py.fromkeys_from eqb seen (l ++ [x]) =
    (Py.fromkeys_from eqb seen l
     ++ if Py.mem eqb x seen || Py.mem eqb x l then [] else [x])%list.
Proof.
  induction l as [|y t IH]; intros seen x; simpl.
  - rewrite orb_false_r. now destruct (Py.mem eqb x seen).
  - destruct (Py.mem eqb y seen) eqn:E.
    + rewrite IH. f_equal.
      destruct (eqb x y) eqn:Exy; simpl; [|reflexivity].
      apply eqb_eq in Exy. subst. rewrite E. reflexivity.
    + simpl. rewrite IH. f_equal. f_equal. simpl.
      destruct (eqb x y), (Py.mem eqb x seen); reflexivity.
Qed.

End FromkeysFacts.

Lemma fromkeys_first_occurrences (l : list string) :
  first_occurrences l (Py.fromkeys l).
Proof.
  induction l as [|x l IH] using rev_ind.
  - constructor.
  - unfold Py.fromkeys, Py.fromkeys_by.
    rewrite (fromkeys_from_snoc String.eqb String.eqb_eq). simpl.
    destruct (Py.mem String.eqb x l) eqn:E.
    + rewrite app_nil_r. apply first_again; [exact IH|].
      now apply (mem_In String.eqb String.eqb_eq).
    + apply first_new; [exact IH|].
      intros H. apply (mem_In String.eqb String.eqb_eq) in H. congruence.
Qed.

Section SortedFacts.

Context {A : Type} (leb : A -> A -> bool).

Lemma insert_Permutation (x : A) (l : list A) :
  Permutation (Py.insert leb x l) (x :: l).
Proof.
  induction l as [|y t IH]; simpl; [reflexivity|].
  destruct (leb x y); [reflexivity|].
  rewrite IH. apply perm_swap.
Qed.

Lemma sorted_Permutation (l : list A) : Permutation (Py.sorted leb l) l.
Proof.
  induction l as [|x t IH]; simpl; [reflexivity|].
  rewrite insert_Permutation. now constructor.
Qed.

Hypothesis leb_total : forall a b, leb a b = true \/ leb b a = true.

Lemma insert_Sorted (x : A) (l : list A) :
  Sorted (fun a b => leb a b = true) l ->
  Sorted (fun a b => leb a b = true) (Py.insert leb x l).
Proof.
  induction 1 as [|y t Ht IH Hd]; simpl.
  - repeat constructor.
  - destruct (leb x y) eqn:E.
    + repeat constructor; assumption.
    + constructor; [exact IH|].
      destruct (leb_total x y) as [H|H]; [congruence|].
      destruct t as [|z t]; simpl.
      * repeat constructor. exact H.
      * destruct (leb x z); constructor; [exact H|].
        now inversion Hd.
Qed.

Lemma sorted_Sorted (l : list A) :
  Sorted (fun a b => leb a b = true) (Py.sorted leb l).
Proof.
  induction l as [|x t IH]; simpl; [constructor|].
  now apply insert_Sorted.
Qed.

End SortedFacts.

Lemma leb_neq_ltb (a b : string) :
  String.leb a b = true -> a <> b -> String.ltb a b = true.
Proof.
  unfold String.leb, String.ltb. intros H Hne.
  destruct (String.compare a b) eqn:E; try reflexivity; try discriminate.
  now apply String.compare_eq_iff in E.
Qed.

(** A sorted list without repetition is strictly increasing. *)
Lemma Sorted_NoDup_strict (l : list string) :
  Sorted (fun a b => String.leb a b = true) l -> NoDup l ->
  Sorted (fun a b => String.ltb a b = true) l.
Proof.
  induction 1 as [|x t Ht IH Hd]; intros Hnd; constructor.
  - apply IH. now inversion Hnd.
  - destruct Hd as [|y t' Hxy]; constructor.
    apply leb_neq_ltb; [exact Hxy|].
    intros ->. inversion Hnd. simpl in *. tauto.
Qed.

(* ================================================================== *)
(** * Properties of the course-mapping aggregation *)
(* ================================================================== *)

Lemma key_eqb_eq (a b : coursera_service.Key) :
  coursera_service.key_eqb a b = true <-> a = b.
Proof.
  revert b. induction a as [|x a IH]; intros [|y b]; simpl;
    try (split; [discriminate|discriminate]); [tauto|].
  rewrite andb_true_iff, String.eqb_eq, IH. split.
  - now intros [-> ->].
  - now intros [= -> ->].
Qed.

Lemma groupby_keys (rows : list CourseMappingRow) (k : coursera_service.Key) :
  In k (map fst (coursera_service.groupby rows)) <-> In k (map coursera_service.key_of rows).
Proof.
  unfold coursera_service.groupby. rewrite map_map. simpl. rewrite map_id.
  split; intros H.
  - apply (fromkeys_by_In _ key_eqb_eq).
    eapply Permutation_in; [apply sorted_Permutation|exact H].
  - eapply Permutation_in; [symmetry; apply sorted_Permutation|].
    now apply (fromkeys_by_In _ key_eqb_eq).
Qed.

Lemma groupby_NoDup (rows : list CourseMappingRow) :
  NoDup (map fst (coursera_service.groupby rows)).
Proof.
  unfold coursera_service.groupby. rewrite map_map. simpl. rewrite map_id.
  eapply Permutation_NoDup; [symmetry; apply sorted_Permutation|].
  apply (fromkeys_by_NoDup _ key_eqb_eq).
Qed.

Lemma groupby_In (rows : list CourseMappingRow)
    (g : coursera_service.Key * list CourseMappingRow) :
  In g (coursera_service.groupby rows) ->
  (exists r, In r rows /\ fst g = coursera_service.key_of r)
  /\ snd g = filter (fun x => coursera_service.key_eqb
                                (coursera_service.key_of x) (fst g)) rows.
Proof.
  intros H. assert (Hk : In (fst g) (map fst (coursera_service.groupby rows))).
  { now apply in_map. }
  apply groupby_keys, in_map_iff in Hk as (r & Hr & Hin).
  split; [now exists r|].
  unfold coursera_service.groupby in H.
  apply in_map_iff in H as (k & <- & _). reflexivity.
Qed.

Lemma agg_group_key (r : CourseMappingRow) (x : list CourseMappingRow) :
  coursera_service.key_of
    (coursera_service.agg_group (coursera_service.key_of r, x))
  = coursera_service.key_of r.
Proof. reflexivity. Qed.

(** C7. The aggregation has one row per key.  For the rows [g] that share
    the six key columns of an emitted row, in emission order, its
    course_name, course_slug and course_link are the first occurrences of
    the group's values joined with ", ", and its course_skills is the first
    occurrences of the pieces obtained by joining the group's course_skills
    with ", " and splitting the result on ", ", joined again.  Two rows of
    one group with course_skills "A, B" and "B, C" give "A, B, C". *)
Theorem aggregate_merges_group :
  (forall rows r, In r rows ->
     exists out names slugs links skills,
       In out (coursera_service.aggregate rows)
       /\ coursera_service.key_of out = coursera_service.key_of r
       /\ (forall out', In out' (coursera_service.aggregate rows) ->
             coursera_service.key_of out' = coursera_service.key_of r ->
             out' = out)
       /\ course_name out = Py.join ", " names
       /\ course_slug out = Py.join ", " slugs
       /\ course_link out = Py.join ", " links
       /\ course_skills out = Py.join ", " skills
       /\ (forall g,
             g = filter (fun x => coursera_service.key_eqb
                                    (coursera_service.key_of x)
                                    (coursera_service.key_of r)) rows ->
             first_occurrences (map course_name g) names
             /\ first_occurrences (map course_slug g) slugs
             /\ first_occurrences (map course_link g) links
             /\ first_occurrences
                  (Py.split ", " (Py.join ", " (map course_skills g)))
                  skills))
  /\ (forall rows, NoDup (map coursera_service.key_of
                            (coursera_service.aggregate rows)))
  /\ (forall name slug link,
        coursera_service.aggregate
          [mkMapping "42" "python programming" "Python" "KS1" "Python"
                     "LIGHTCAST" name slug link "A, B";
           mkMapping "42" "python programming" "Python" "KS1" "Python"
                     "LIGHTCAST" name slug link "B, C"]
        = [mkMapping "42" "python programming" "Python" "KS1" "Python"
                     "LIGHTCAST" name slug link "A, B, C"]).
Proof.
  split; [|split].
  - intros rows r Hr.
    set (g := filter (fun x => coursera_service.key_eqb
                (coursera_service.key_of x) (coursera_service.key_of r)) rows).
    exists (coursera_service.agg_group (coursera_service.key_of r, g)).
    exists (Py.fromkeys (map course_name g)), (Py.fromkeys (map course_slug g)),
      (Py.fromkeys (map course_link g)),
      (Py.fromkeys (Py.split ", " (Py.join ", " (map course_skills g)))).
    split; [|split; [reflexivity|split]].
    + unfold coursera_service.aggregate. apply in_map.
      assert (Hk : In (coursera_service.key_of r)
                      (map fst (coursera_service.groupby rows))).
      { apply groupby_keys. now apply in_map. }
      apply in_map_iff in Hk as ([k x] & Hfst & Hg). simpl in Hfst. subst k.
      destruct (groupby_In rows _ Hg) as [_ Hx]. simpl in Hx.
      subst x. exact Hg.
    + intros out' Hout' Hkey.
      unfold coursera_service.aggregate in Hout'.
      apply in_map_iff in Hout' as ([k x] & <- & Hg).
      destruct (groupby_In rows _ Hg) as [(r' & _ & Hk) Hx]. simpl in Hk, Hx.
      subst k. rewrite agg_group_key in Hkey. rewrite Hkey in *.
      subst x. reflexivity.
    + repeat split; intros; subst; fold g; apply fromkeys_first_occurrences.
  - intros rows. unfold coursera_service.aggregate. rewrite map_map.
    rewrite (map_ext_in _ fst); [apply groupby_NoDup|].
    intros [k x] Hg. destruct (groupby_In rows _ Hg) as [(r' & _ & Hk) _].
    simpl in *. subst k. apply agg_group_key.
  - intros name slug link.
    unfold coursera_service.aggregate, coursera_service.groupby. simpl.
    unfold coursera_service.agg_unique, Py.fromkeys, Py.fromkeys_by. simpl.
    rewrite String.eqb_refl. simpl.
    rewrite !String.eqb_refl. reflexivity.
Qed.

(** Two crawled rows of one skill around a row of another skill. *)
Lemma aggregate_merges_group_witness :
  exists out,
    In out (coursera_service.aggregate
              [mkMapping "1" "java" "Java" "K1" "Java" "LIGHTCAST"
                         "Intro" "intro" "https://www.coursera.org/learn/intro"
                         "OOP, Java";
               mkMapping "2" "sql" "" "" "sql" "WORKDAY"
                         "Data" "data" "https://www.coursera.org/learn/data"
                         "SQL";
               mkMapping "1" "java" "Java" "K1" "Java" "LIGHTCAST"
                         "Intro" "intro" "https://www.coursera.org/learn/intro"
                         "Java, Testing"])
    /\ course_name out = "Intro"
    /\ course_skills out = "OOP, Java, Testing".
Proof.
  destruct (proj1 aggregate_merges_group
              [mkMapping "1" "java" "Java" "K1" "Java" "LIGHTCAST"
                         "Intro" "intro" "https://www.coursera.org/learn/intro"
                         "OOP, Java";
               mkMapping "2" "sql" "" "" "sql" "WORKDAY"
                         "Data" "data" "https://www.coursera.org/learn/data"
                         "SQL";
               mkMapping "1" "java" "Java" "K1" "Java" "LIGHTCAST"
                         "Intro" "intro" "https://www.coursera.org/learn/intro"
                         "Java, Testing"]
              (mkMapping "1" "java" "Java" "K1" "Java" "LIGHTCAST"
                         "Intro" "intro" "https://www.coursera.org/learn/intro"
                         "OOP, Java")
              ltac:(simpl; auto))
    as (out & names & slugs & links & skills & Hin & Hkey & _).
  exists out. split; [exact Hin|].
  vm_compute in Hin. destruct Hin as [<-|[<-|[]]].
  - split; reflexivity.
  - discriminate Hkey.
Defined.

(* ================================================================== *)
(** * Properties of the skill extraction *)
(* ================================================================== *)

Lemma with_next_In (l : list node) (n : node) (rest : list node) :
  In (n, rest) (coursera_service.with_next l) <->
  exists pre, l = (pre ++ n :: rest)%list.
Proof.
  induction l as [|m l IH]; simpl.
  - split; [tauto|]. intros ([|? ?] & H); discriminate.
  - split.
    + intros [[= -> ->]|H].
      * now exists [].
      * apply IH in H as (pre & ->). now exists (m :: pre).
    + intros ([|m' pre] & H); simpl in H; injection H as -> ->.
      * now left.
      * right. apply IH. now exists pre.
Qed.

(** [find] returns the first element that passes the test. *)
Lemma find_first {A} (p : A -> bool) (l : list A) (x : A) :
  find p l = Some x <->
  exists mid post, l = (mid ++ x :: post)%list /\ p x = true
                   /\ forall n, In n mid -> p n = false.
Proof.
  induction l as [|y l IH]; simpl.
  - split; [discriminate|]. intros ([|? ?] & ? & H & _); discriminate.
  - destruct (p y) eqn:E; split.
    + intros [= ->]. exists [], l. simpl. tauto.
    + intros ([|m mid] & post & H & Hx & Hmid); simpl in H;
        injection H as H1 H2; subst.
      * reflexivity.
      * rewrite (Hmid m) in E; [discriminate|now left].
    + intros H. apply IH in H as (mid & post & -> & Hx & Hmid).
      exists (y :: mid), post. repeat split; auto.
      intros n [->|Hn]; auto.
    + intros ([|m mid] & post & H & Hx & Hmid); simpl in H;
        injection H as H1 H2; subst.
      * congruence.
      * apply IH. exists mid, post. repeat split; auto.
        intros n Hn. apply Hmid. now right.
Qed.

(** The skills one heading contributes, in terms of document order. *)
Lemma heading_skills_In (h : node) (rest : list node) (s : string) :
  In s (coursera_service.heading_skills (h, rest)) <->
  s <> ""
  /\ Py.contains "skill" (Py.lower (coursera_service.get_text h)) = true
  /\ exists mid ul post a,
       rest = (mid ++ ul :: post)%list
       /\ coursera_service.is_tag "ul" ul = true
       /\ (forall n, In n mid -> coursera_service.is_tag "ul" n = false)
       /\ In a (coursera_service.descendants ul)
       /\ coursera_service.is_tag "a" a = true
       /\ coursera_service.get_text a = s.
Proof.
  unfold coursera_service.heading_skills, coursera_service.find_next,
    coursera_service.find_all_in. simpl.
  destruct (Py.contains _ _); [|split; [contradiction|intros (_ & H & _); discriminate]].
  destruct (find _ rest) as [ul|] eqn:E.
  - apply find_first in E as (mid & post & -> & Hul & Hmid).
    rewrite filter_In, in_map_iff. split.
    + intros [(a & <- & Ha) Hne]. apply filter_In in Ha as [Ha Hta].
      split; [|split; [reflexivity|]].
      * unfold coursera_service.nonempty in Hne.
        now apply negb_true_iff, String.eqb_neq in Hne.
      * exists mid, ul, post, a. repeat split; auto.
    + intros (Hne & _ & mid' & ul' & post' & a & Hsplit & Hul' & Hmid' & Ha & Hta & <-).
      assert (Hsame : find (coursera_service.is_tag "ul") (mid ++ ul :: post)
                      = Some ul').
      { rewrite Hsplit. apply find_first. exists mid', post'. auto. }
      assert (Hfst : find (coursera_service.is_tag "ul") (mid ++ ul :: post)
                     = Some ul).
      { apply find_first. exists mid, post. auto. }
      rewrite Hfst in Hsame. injection Hsame as <-.
      split.
      * exists a. split; [reflexivity|]. apply filter_In. auto.
      * unfold coursera_service.nonempty.
        now apply negb_true_iff, String.eqb_neq.
  - simpl. split; [contradiction|].
    intros (_ & _ & mid & ul & post & a & -> & Hul & Hmid & _).
    assert (Hsome : find (coursera_service.is_tag "ul") (mid ++ ul :: post)
                    = Some ul).
    { apply find_first. exists mid, post. auto. }
    congruence.
Qed.

(** C3 (amended). For a page that was fetched, the result of
    [fetch_course_skills] is the ", "-join of a strictly increasing list of
    strings, hence sorted and without repetition.  A string is in that list
    exactly when it is not empty and is the stripped text of a link inside
    the first ul list that comes anywhere after, in document order, some
    h2 heading whose text contains "skill" in any letter case: every such
    heading contributes, and the list need not stand next to it.  A fetch
    that fails gives the empty string. *)
Theorem fetch_course_skills_first_list (soup : node) :
  (exists skills,
     coursera_service.fetch_course_skills (Ok soup) = Py.join ", " skills
     /\ Sorted (fun a b => String.ltb a b = true) skills
     /\ NoDup skills
     /\ forall s,
          In s skills <->
          s <> ""
          /\ exists pre h mid ul post a,
               coursera_service.descendants soup
               = (pre ++ h :: mid ++ ul :: post)%list
               /\ coursera_service.is_tag "h2" h = true
               /\ Py.contains "skill"
                    (Py.lower (coursera_service.get_text h)) = true
               /\ coursera_service.is_tag "ul" ul = true
               /\ (forall n, In n mid -> coursera_service.is_tag "ul" n = false)
               /\ In a (coursera_service.descendants ul)
               /\ coursera_service.is_tag "a" a = true
               /\ coursera_service.get_text a = s)
  /\ (forall e, coursera_service.fetch_course_skills (Raise e) = "").
Proof.
  split; [|reflexivity].
  exists (Py.sorted String.leb (Py.set (coursera_service.page_skills soup))).
  assert (Hnd : NoDup (Py.sorted String.leb
                         (Py.set (coursera_service.page_skills soup)))).
  { eapply Permutation_NoDup; [symmetry; apply sorted_Permutation|].
    apply (fromkeys_by_NoDup _ String.eqb_eq). }
  split; [reflexivity|]. split; [|split; [exact Hnd|]].
  - apply Sorted_NoDup_strict; [|exact Hnd].
    apply sorted_Sorted. exact String.leb_total.
  - intros s.
    assert (Hin : In s (Py.sorted String.leb
                          (Py.set (coursera_service.page_skills soup)))
                  <-> In s (coursera_service.page_skills soup)).
    { unfold Py.set, Py.fromkeys.
      split; intros H.
      - apply (fromkeys_by_In _ String.eqb_eq).
        eapply Permutation_in; [apply sorted_Permutation|exact H].
      - eapply Permutation_in; [symmetry; apply sorted_Permutation|].
        now apply (fromkeys_by_In _ String.eqb_eq). }
    rewrite Hin. unfold coursera_service.page_skills.
    rewrite in_flat_map. split.
    + intros ([h rest] & Hh & Hs).
      unfold coursera_service.find_all in Hh.
      apply filter_In in Hh as [Hh Hh2]. simpl in Hh2.
      apply with_next_In in Hh as (pre & Hdoc).
      apply heading_skills_In in Hs
        as (Hne & Hskill & mid & ul & post & a & -> & Hrest).
      split; [exact Hne|].
      exists pre, h, mid, ul, post, a. split; [exact Hdoc|]. tauto.
    + intros (Hne & pre & h & mid & ul & post & a & Hdoc & Hh2 & Hskill & Hrest).
      exists (h, (mid ++ ul :: post)%list). split.
      * unfold coursera_service.find_all. apply filter_In.
        split; [|exact Hh2]. apply with_next_In. now exists pre.
      * apply heading_skills_In. split; [exact Hne|]. split; [exact Hskill|].
        exists mid, ul, post, a. tauto.
Qed.

(** On the sample page only the list under the skills heading is read. *)
Lemma fetch_course_skills_first_list_witness :
  coursera_service.fetch_course_skills (Ok Sample.course_page)
  = "Data Analysis, Python"
  /\ exists skills,
       coursera_service.fetch_course_skills (Ok Sample.course_page)
       = Py.join ", " skills
       /\ In "Python" skills /\ ~ In "Zebra" skills.
Proof.
  split; [reflexivity|].
  destruct (proj1 (fetch_course_skills_first_list Sample.course_page))
    as (skills & Heq & _ & _ & Hmem).
  exists skills. split; [exact Heq|]. split.
  - apply Hmem. split; [discriminate|].
    exists [], (Tag "h2" [Text " Skills you'll gain "]),
      [Text " Skills you'll gain "], Sample.skills_list,
      (tl (coursera_service.preorder Sample.skills_list)
       ++ coursera_service.preorder (Tag "h2" [Text "Reviews"])
       ++ coursera_service.preorder Sample.reviews_list)%list,
      (Tag "a" [Text "Python"]).
    split; [reflexivity|]. repeat split.
    + intros n [<-|[]]. reflexivity.
    + simpl. auto.
  - intros H. apply Hmem in H
      as (_ & pre & h & mid & ul & post & a & Hdoc & Hh & Hskill & Hul & Hmid
          & Ha & Hta & Htext).
    assert (Hfetch : In "Zebra"
              (coursera_service.page_skills Sample.course_page)).
    { unfold coursera_service.page_skills. apply in_flat_map.
      exists (h, (mid ++ ul :: post)%list). split.
      - apply filter_In. split; [|exact Hh].
        apply with_next_In. now exists pre.
      - apply heading_skills_In. split; [discriminate|]. split; [exact Hskill|].
        exists mid, ul, post, a. tauto. }
    vm_compute in Hfetch. intuition discriminate.
Defined.


(** C3 (counterexample). The extraction is not that of the first heading
    with the list right after it.  When the skills heading has no list of
    its own, the list of a later section is read; when two headings mention
    skills, the lists of both are read; a heading that is not an h2 heading
    is not seen.  On the plain sample page the two readings agree. *)
Lemma fetch_course_skills_reads_other_lists :
  coursera_service.fetch_course_skills (Ok Sample.page_list_elsewhere)
  = "Zebra"
  /\ spec_course_skills Sample.page_list_elsewhere = ""
  /\ coursera_service.fetch_course_skills (Ok Sample.page_two_headings)
     = "Log in, Pricing, Python"
  /\ spec_course_skills Sample.page_two_headings = "Python"
  /\ coursera_service.fetch_course_skills (Ok Sample.page_other_heading) = ""
  /\ spec_course_skills Sample.page_other_heading = "Python"
  /\ coursera_service.fetch_course_skills (Ok Sample.course_page)
     = spec_course_skills Sample.course_page.
Proof. repeat split. Qed.

(* ================================================================== *)
(** * Further properties: the skill store *)
(* ================================================================== *)

Section StoreMore.

Variable is_na : string -> bool.
Variable str_contains : string -> string + (string -> bool).
Variable to_excel : DataFrame -> result unit.

Abbreviation load_df := (skill_store.load_df is_na).
Abbreviation frame := (rows_read is_na).
Abbreviation read_cell := (skill_store.read_cell is_na).
Abbreviation read_row := (skill_store.read_row is_na).
Abbreviation list_skills := (skill_store.list_skills is_na str_contains).
Abbreviation update_lightcast_skill :=
  (skill_store.update_lightcast_skill is_na to_excel).
Abbreviation delete_skill := (skill_store.delete_skill is_na to_excel).
Abbreviation get_lightcast_ready_df :=
  (skill_store.get_lightcast_ready_df is_na str_contains).
Abbreviation id_mask := skill_store.id_mask.
Abbreviation exact_mask := skill_store.exact_mask.
Abbreviation not_found := skill_store.not_found.

(** Writing rows that came from the file and reading them again gives the
    same rows. *)
Lemma reload (df : DataFrame) :
  (forall r, In r df -> read_row r = r) ->
  frame (Table df) = df.
Proof.
  intros H. unfold rows_read. simpl. rewrite <- (map_id df) at 2.
  apply map_ext_in. exact H.
Qed.

Lemma reload_filter (st : Store) (f : SkillRecord -> bool) :
  frame (Table (filter f (frame st))) = filter f (frame st).
Proof.
  apply reload. intros r Hr. apply filter_In in Hr as [Hr _].
  now apply (frame_read is_na st).
Qed.

Lemma load_table (df : DataFrame) : load_df (Table df) = Ok (frame (Table df)).
Proof. reflexivity. Qed.

Lemma delete_by_id_store (st st' : Store) (i : string) (w : option string) :
  i <> "" ->
  delete_skill st (Some i) w = (st', Ok tt) ->
  existsb (id_mask i) (frame st) = true
  /\ st' = Table (filter (fun r => negb (id_mask i r)) (frame st)).
Proof.
  intros Hi. unfold skill_store.delete_skill, skill_store.when_given,
    Py.truthy, skill_store.save_df.
  apply String.eqb_neq in Hi. rewrite Hi. simpl.
  destruct (store_readable is_na st) as [->|Hread]; [discriminate|].
  rewrite Hread.
  destruct (existsb _ _); simpl; [|discriminate].
  intros [= <- _]. auto.
Qed.

Lemma delete_by_workday_store (st st' : Store) (rid : option string)
    (v : string) :
  Py.truthy rid = false -> v <> "" ->
  delete_skill st rid (Some v) = (st', Ok tt) ->
  existsb (exact_mask v) (frame st) = true
  /\ st' = Table (filter (fun r => negb (exact_mask v r)) (frame st)).
Proof.
  intros Hrid Hv.
  unfold skill_store.delete_skill, skill_store.when_given,
    skill_store.save_df.
  rewrite Hrid. unfold Py.truthy in *.
  apply String.eqb_neq in Hv. rewrite Hv.
  assert (Hskip : match rid with
                  | Some s => s =? ""
                  | None => true
                  end = true).
  { destruct rid as [s|]; [|reflexivity]. now apply negb_false_iff. }
  simpl.
  destruct (store_readable is_na st) as [->|Hread]; [discriminate|].
  rewrite Hread.
  destruct rid as [s|]; [rewrite Hskip|]; simpl;
    (destruct (existsb _ _); simpl; [|discriminate]);
    intros [= <- _]; auto.
Qed.

Lemma filtered_out {A} (f : A -> bool) (l : list A) (x : A) :
  In x (filter (fun y => negb (f y)) l) -> f x = false.
Proof. intros H. apply filter_In in H as [_ H]. now apply negb_true_iff. Qed.

(** X1. A successful delete by remote_skill_id leaves, when the file is
    read again, exactly the former rows whose trimmed id differs from the
    trimmed selector, in their former order; no remaining row matches, and
    the store has fewer rows than before. *)
Theorem delete_by_id_removes_exactly
    (st st' : Store) (i : string) (w : option string) :
  i <> "" ->
  delete_skill st (Some i) w = (st', Ok tt) ->
  frame st' = filter (fun r => negb (id_mask i r)) (frame st)
  /\ (forall r, In r (frame st') -> id_mask i r = false)
  /\ length (frame st') < length (frame st).
Proof.
  intros Hi H. destruct (delete_by_id_store st st' i w Hi H) as [Hex ->].
  rewrite reload_filter. split; [reflexivity|]. split.
  - intros r. apply filtered_out.
  - now apply filter_out_length_lt.
Qed.

(** X2. After a successful delete by remote_skill_id the id is gone for the
    other operations too: deleting it again raises not-found and leaves
    the file alone, and so does listing by it. *)
Theorem delete_by_id_then_not_found
    (st st' : Store) (i : string) (w : option string) :
  i <> "" ->
  delete_skill st (Some i) w = (st', Ok tt) ->
  delete_skill st' (Some i) w = (st', Raise (not_found "remote_skill_id" i))
  /\ list_skills st' (Some i) None None = Raise (not_found "remote_skill_id" i).
Proof.
  intros Hi H. destruct (delete_by_id_store st st' i w Hi H) as [_ ->].
  assert (E : existsb (id_mask i)
                (frame (Table
                   (filter (fun r => negb (id_mask i r)) (frame st))))
              = false).
  { rewrite reload_filter. apply existsb_false_iff.
    intros r. apply filtered_out. }
  unfold skill_store.delete_skill, skill_store.list_skills,
    skill_store.when_given, Py.truthy.
  rewrite load_table. cbn [bind].
  apply String.eqb_neq in Hi. rewrite Hi. simpl negb. cbv iota. simpl andb.
  cbv iota. rewrite E. split; reflexivity.
Qed.

(** X3. A successful delete by workday_skill alone leaves exactly the
    former rows whose trimmed, lower-cased workday_skill differs from that of
    the selector; afterwards an update addressed to the same workday_skill
    finds no row. *)
Theorem delete_by_workday_removes_exactly
    (st st' : Store) (rid : option string) (v x : string) :
  Py.truthy rid = false -> v <> "" ->
  delete_skill st rid (Some v) = (st', Ok tt) ->
  frame st' = filter (fun r => negb (exact_mask v r)) (frame st)
  /\ (forall r, In r (frame st') -> exact_mask v r = false)
  /\ update_lightcast_skill st' v x
     = (st', Raise (ValueError "Workday skill not found")).
Proof.
  intros Hrid Hv H.
  destruct (delete_by_workday_store st st' rid v Hrid Hv H) as [_ ->].
  rewrite reload_filter. split; [reflexivity|]. split.
  - intros r. apply filtered_out.
  - unfold skill_store.update_lightcast_skill.
    rewrite load_table, reload_filter.
    assert (E : existsb (exact_mask v)
                  (filter (fun r => negb (exact_mask v r)) (frame st))
                = false).
    { apply existsb_false_iff. intros r. apply filtered_out. }
    now rewrite E.
Qed.

Lemma read_row_set_lightcast (v : string) (r : SkillRecord) :
  read_row (set_lightcast_skill v r)
  = set_lightcast_skill (read_cell v) (read_row r).
Proof. reflexivity. Qed.

Lemma update_saved (st st' : Store) (w v : string) :
  update_lightcast_skill st w v = (st', Ok tt) ->
  existsb (exact_mask w) (frame st) = true
  /\ st' = Table (skill_store.loc_set_lightcast (exact_mask w) v (frame st))
  /\ to_excel (skill_store.loc_set_lightcast (exact_mask w) v (frame st))
     = Ok tt.
Proof.
  unfold skill_store.update_lightcast_skill, skill_store.save_df.
  destruct (store_readable is_na st) as [->|Hread]; [discriminate|].
  rewrite Hread.
  destruct (existsb _ _); simpl; [|discriminate].
  intros [= <- ->]. auto.
Qed.

Lemma update_reload (st : Store) (w v : string) :
  frame (Table (skill_store.loc_set_lightcast (exact_mask w) v (frame st)))
  = map (fun r => if exact_mask w r
                  then set_lightcast_skill (read_cell v) r else r)
        (frame st).
Proof.
  unfold rows_read at 1. simpl.
  unfold skill_store.loc_set_lightcast. rewrite map_map.
  apply map_ext_in. intros r Hr. apply frame_read in Hr.
  destruct (exact_mask w r); [|exact Hr].
  now rewrite read_row_set_lightcast, Hr.
Qed.

(** X4. A successful update rewrites the file so that, read again, it has
    the same rows in the same order, each unchanged except that the rows
    whose trimmed, lower-cased workday_skill matches carry the new
    lightcast_skill as the reader returns it. *)
Theorem update_rewrites_only_lightcast (st st' : Store) (w v : string) :
  update_lightcast_skill st w v = (st', Ok tt) ->
  frame st' = map (fun r => if exact_mask w r
                            then set_lightcast_skill (read_cell v) r else r)
                  (frame st)
  /\ length (frame st') = length (frame st)
  /\ map remote_skill_id (frame st') = map remote_skill_id (frame st)
  /\ map workday_skill (frame st') = map workday_skill (frame st).
Proof.
  intros H. destruct (update_saved st st' w v H) as (_ & -> & _).
  rewrite update_reload. split; [reflexivity|]. split; [apply length_map|].
  split; rewrite map_map; apply map_ext; intros r;
    now destruct (exact_mask w r).
Qed.

(** X5. Updating twice with the same arguments is the same as updating
    once: the second call succeeds and writes the same file. *)
Theorem update_twice_same (st st' : Store) (w v : string) :
  update_lightcast_skill st w v = (st', Ok tt) ->
  update_lightcast_skill st' w v = (st', Ok tt).
Proof.
  intros H. destruct (update_saved st st' w v H) as (Hex & -> & Hsheet).
  unfold skill_store.update_lightcast_skill at 1.
  rewrite load_table, update_reload.
  assert (Hmask : forall r,
            exact_mask w (if exact_mask w r
                          then set_lightcast_skill (read_cell v) r else r)
            = exact_mask w r).
  { intros r. now destruct (exact_mask w r) eqn:E. }
  assert (E : existsb (exact_mask w)
                (map (fun r => if exact_mask w r
                               then set_lightcast_skill (read_cell v) r else r)
                     (frame st)) = true).
  { apply existsb_exists in Hex as (r & Hr & Hm).
    apply existsb_exists. eexists. split; [apply in_map; exact Hr|].
    now rewrite Hmask. }
  rewrite E. simpl. unfold skill_store.save_df.
  assert (Esame : skill_store.loc_set_lightcast (exact_mask w) v
                    (map (fun r => if exact_mask w r
                                   then set_lightcast_skill (read_cell v) r
                                   else r) (frame st))
                  = skill_store.loc_set_lightcast (exact_mask w) v (frame st)).
  { unfold skill_store.loc_set_lightcast. rewrite map_map.
    apply map_ext. intros r. rewrite Hmask.
    now destruct (exact_mask w r). }
  now rewrite Esame, Hsheet.
Qed.

(** X6. On a file the reader accepts, and with a sheet writer that does
    not raise that very error itself, an update fails with "Workday skill
    not found" and the file left as it was exactly when no row of the store
    has the trimmed, lower-cased workday_skill asked for. *)
Theorem update_fails_iff_no_match (st : Store) (w v : string) :
  st <> Blank ->
  (forall df, to_excel df <> Raise (ValueError "Workday skill not found")) ->
  (forall r, In r (frame st) -> exact_mask w r = false)
  <-> update_lightcast_skill st w v
      = (st, Raise (ValueError "Workday skill not found")).
Proof.
  intros Hst Hsheet.
  unfold skill_store.update_lightcast_skill, skill_store.save_df.
  rewrite (load_df_rows is_na st Hst). split.
  - intros H. apply existsb_false_iff in H. now rewrite H.
  - destruct (existsb _ _) eqn:E; simpl.
    + intros [= _ H]. now apply Hsheet in H.
    + intros _. now apply existsb_false_iff.
Qed.

Ltac run_list H :=
  repeat match type of H with
    | context [str_contains ?p] => destruct (str_contains p); simpl in H
    | context [if negb (existsb ?f ?l) then _ else _] =>
        let E := fresh "E" in destruct (existsb f l) eqn:E; simpl in H
    end;
  try discriminate.

(** X7. What a successful [list_skills] returns is a selection of the
    store's rows in their stored order, and when a remote_skill_id is given
    every returned row has that id, both sides trimmed. *)
Theorem list_skills_selects_in_order
    (st : Store) (a b c : option string) (rows : DataFrame) :
  list_skills st a b c = Ok rows ->
  (exists keep, rows = filter keep (frame st))
  /\ (forall rid, a = Some rid -> rid <> "" ->
        forall r, In r rows ->
          Py.strip (remote_skill_id r) = Py.strip rid).
Proof.
  unfold skill_store.list_skills.
  destruct (store_readable is_na st) as [->|Hread]; [discriminate|].
  rewrite Hread. cbn [bind]. set (df := frame st). clearbody df.
  unfold skill_store.contains_mask, skill_store.when_given.
  intros H.
  case_given a; case_given b; case_given c; simpl in H; run_list H;
    injection H as <-; rewrite ?filter_twice;
    (split; [eexists; first [reflexivity | symmetry; apply filter_all]|]);
    intros rid Hrid Hne; try discriminate; injection Hrid as Hrid; subst;
    try (now elim Hne);
    intros r Hr; apply filter_In in Hr as [_ Hr];
    repeat (apply andb_true_iff in Hr as [Hr _]);
    now apply String.eqb_eq in Hr.
Qed.

(** X8. When exactly one filter is given, a successful [list_skills] never
    returns the empty list. *)
Theorem list_skills_single_filter_nonempty
    (st : Store) (a b c : option string) (rows : DataFrame) :
  length (filter Py.truthy [a; b; c]) = 1 ->
  list_skills st a b c = Ok rows ->
  rows <> [].
Proof.
  unfold skill_store.list_skills.
  destruct (store_readable is_na st) as [->|Hread]; [discriminate|].
  rewrite Hread. cbn [bind]. set (df := frame st). clearbody df.
  unfold skill_store.contains_mask, skill_store.when_given.
  intros Hone H.
  case_given a; case_given b; case_given c; simpl in Hone;
    repeat match type of Hone with
      | context [?s =? ""] =>
          let E := fresh in
          destruct (String.eqb_spec s "") as [E|E];
          [now elim E + (subst; congruence) | simpl in Hone]
      end;
    try discriminate; simpl in H; run_list H; injection H as <-;
    intros Hnil; apply filter_nil_iff in Hnil; congruence.
Qed.

(** X9. The lightcast-ready listing is the plain listing restricted to the
    rows with a non-blank lightcast_skill: whenever
    [get_lightcast_ready_df] succeeds, [list_skills] with the same two
    filters succeeds as well, and the ready rows are its rows with a
    non-blank lightcast_skill, in the same order. *)
Theorem lightcast_ready_is_filtered_list
    (st : Store) (a b : option string) (rows : DataFrame) :
  get_lightcast_ready_df st a b = Ok rows ->
  exists all,
    list_skills st a b None = Ok all
    /\ rows = filter (fun r => negb (Py.strip (lightcast_skill r) =? "")) all.
Proof.
  unfold skill_store.get_lightcast_ready_df, skill_store.list_skills.
  destruct (store_readable is_na st) as [->|Hread]; [discriminate|].
  rewrite Hread. cbn [bind]. set (df := frame st). clearbody df.
  unfold skill_store.contains_mask, skill_store.when_given.
  set (ready := fun r => negb (Py.strip (lightcast_skill r) =? "")).
  destruct (filter ready df) as [|r0 base] eqn:Ebase;
    [discriminate|]. rewrite <- Ebase. clear Ebase r0 base.
  intros H.
  case_given a; case_given b; simpl in H |- *; run_list H;
    injection H as <-; simpl;
    repeat match goal with
      | E : existsb _ (filter _ _) = true |- _ =>
          apply existsb_filter in E; rewrite E; clear E
      end; simpl;
    eexists; (split; [reflexivity|]);
    rewrite ?filter_twice; apply filter_ext; intros r;
    repeat match goal with
      | |- context [?f r] => is_var f; destruct (f r)
      | |- context [ready r] => destruct (ready r)
      | |- context [id_mask ?i r] => destruct (id_mask i r)
      | |- context [?t (Py.lower ?x)] => destruct (t (Py.lower x))
      end; reflexivity.
Qed.

(** X10. When the reader returns no row with a non-blank lightcast_skill,
    [get_lightcast_ready_df] raises whatever the filters are: its
    no-records error when the file is absent or has its header line, and
    the reader's own error when the file has no header line. *)
Theorem lightcast_ready_none_ready (st : Store) (a b : option string) :
  (forall r, In r (frame st) -> Py.strip (lightcast_skill r) = "") ->
  get_lightcast_ready_df st a b
  = Raise (ValueError
             match st with
             | Blank => EMPTY_DATA
             | _ => "No records with valid lightcast_skill found"
             end).
Proof.
  intros H. unfold skill_store.get_lightcast_ready_df.
  assert (E : filter (fun r => negb (Py.strip (lightcast_skill r) =? ""))
                     (frame st) = []).
  { apply filter_nil_iff, existsb_false_iff. intros r Hr.
    now rewrite (H r Hr). }
  destruct (store_readable is_na st) as [->|Hread]; [reflexivity|].
  rewrite Hread. cbn [bind]. rewrite E. now destruct st.
Qed.

End StoreMore.

(** ** Worked cases for the store properties *)

(** Deleting id 1 from the two-row store. *)
Lemma delete_by_id_removes_exactly_witness :
  rows_read Sample.is_na (Table [Sample.row "2" "javascript" "JavaScript"])
  = filter (fun r => negb (skill_store.id_mask " 1" r))
           (rows_read Sample.is_na Sample.two_skills)
  /\ (forall r, In r (rows_read Sample.is_na
                        (Table [Sample.row "2" "javascript" "JavaScript"])) ->
                skill_store.id_mask " 1" r = false)
  /\ length (rows_read Sample.is_na
               (Table [Sample.row "2" "javascript" "JavaScript"]))
     < length (rows_read Sample.is_na Sample.two_skills).
Proof.
  apply (delete_by_id_removes_exactly Sample.is_na Sample.to_excel
           Sample.two_skills _ " 1" None).
  - discriminate.
  - reflexivity.
Defined.

(** Deleting id 1 a second time. *)
Lemma delete_by_id_then_not_found_witness :
  skill_store.delete_skill Sample.is_na Sample.to_excel
    (Table [Sample.row "2" "javascript" "JavaScript"]) (Some "1") None
  = (Table [Sample.row "2" "javascript" "JavaScript"],
     Raise (skill_store.not_found "remote_skill_id" "1"))
  /\ skill_store.list_skills Sample.is_na Sample.str_contains
       (Table [Sample.row "2" "javascript" "JavaScript"]) (Some "1") None None
     = Raise (skill_store.not_found "remote_skill_id" "1").
Proof.
  apply (delete_by_id_then_not_found Sample.is_na Sample.str_contains
           Sample.to_excel Sample.two_skills _ "1" None).
  - discriminate.
  - reflexivity.
Defined.

(** Deleting the workday skill "JavaScript ". *)
Lemma delete_by_workday_removes_exactly_witness :
  skill_store.update_lightcast_skill Sample.is_na Sample.to_excel
    (Table [Sample.row "1" "java" "Java"]) "JavaScript " "X"
  = (Table [Sample.row "1" "java" "Java"],
     Raise (ValueError "Workday skill not found")).
Proof.
  apply (delete_by_workday_removes_exactly Sample.is_na Sample.to_excel
           Sample.two_skills
           (Table [Sample.row "1" "java" "Java"]) None "JavaScript " "X").
  - reflexivity.
  - discriminate.
  - reflexivity.
Defined.

(** Setting the lightcast skill of "java" to a missing-value marker. *)
Lemma update_rewrites_only_lightcast_witness :
  rows_read Sample.is_na
    (Table [Sample.row "1" "java" "NA";
            Sample.row "2" "javascript" "JavaScript"])
  = [Sample.row "1" "java" ""; Sample.row "2" "javascript" "JavaScript"]
  /\ length (rows_read Sample.is_na
               (Table [Sample.row "1" "java" "NA";
                       Sample.row "2" "javascript" "JavaScript"]))
     = length (rows_read Sample.is_na Sample.two_skills).
Proof.
  destruct (update_rewrites_only_lightcast Sample.is_na Sample.to_excel
              Sample.two_skills
              (Table [Sample.row "1" "java" "NA";
                      Sample.row "2" "javascript" "JavaScript"])
              "Java" "NA" eq_refl) as (H & Hlen & _).
  split; [rewrite H; reflexivity | exact Hlen].
Defined.

Lemma update_twice_same_witness :
  skill_store.update_lightcast_skill Sample.is_na Sample.to_excel
    (Table [Sample.row "1" "java" "NA";
            Sample.row "2" "javascript" "JavaScript"]) "Java" "NA"
  = (Table [Sample.row "1" "java" "NA";
            Sample.row "2" "javascript" "JavaScript"], Ok tt).
Proof.
  apply (update_twice_same Sample.is_na Sample.to_excel Sample.two_skills).
  reflexivity.
Defined.

Lemma update_fails_iff_no_match_witness :
  skill_store.update_lightcast_skill Sample.is_na Sample.to_excel
    Sample.two_skills "jav" "X"
  = (Sample.two_skills, Raise (ValueError "Workday skill not found")).
Proof.
  apply (update_fails_iff_no_match Sample.is_na Sample.to_excel
           Sample.two_skills "jav" "X").
  - discriminate.
  - discriminate.
  - intros r [<-|[<-|[]]]; reflexivity.
Defined.

Lemma list_skills_selects_in_order_witness :
  Py.strip (remote_skill_id (Sample.row "2" "javascript" "JavaScript"))
  = Py.strip " 2 ".
Proof.
  destruct (list_skills_selects_in_order Sample.is_na Sample.str_contains
              Sample.two_skills (Some " 2 ") (Some "JAVA") None
              [Sample.row "2" "javascript" "JavaScript"] eq_refl)
    as [_ H].
  apply (H " 2 " eq_refl); [discriminate | simpl; auto].
Defined.

Lemma list_skills_single_filter_nonempty_witness :
  [Sample.row "1" "java" "Java"; Sample.row "2" "javascript" "JavaScript"]
  <> [].
Proof.
  apply (list_skills_single_filter_nonempty Sample.is_na Sample.str_contains
           Sample.two_skills (Some "") (Some "ava") None);
    reflexivity.
Defined.

Lemma lightcast_ready_is_filtered_list_witness :
  exists all,
    skill_store.list_skills Sample.is_na Sample.str_contains
      (Table [Sample.row "1" "java" " "; Sample.row "2" "javascript" "JS"])
      None (Some "java") None = Ok all
    /\ [Sample.row "2" "javascript" "JS"]
       = filter (fun r => negb (Py.strip (lightcast_skill r) =? "")) all.
Proof.
  apply (lightcast_ready_is_filtered_list Sample.is_na Sample.str_contains
           (Table [Sample.row "1" "java" " "; Sample.row "2" "javascript" "JS"])
           None (Some "java")).
  reflexivity.
Defined.

(** Two rows without a usable lightcast_skill, then the file without a
    header line. *)
Lemma lightcast_ready_none_ready_witness :
  skill_store.get_lightcast_ready_df Sample.is_na Sample.str_contains
    (Table [Sample.row "1" "java" " "; Sample.row "2" "javascript" "null"])
    (Some "1") None
  = Raise (ValueError "No records with valid lightcast_skill found")
  /\ skill_store.get_lightcast_ready_df Sample.is_na Sample.str_contains
       Blank (Some "1") None
     = Raise (ValueError EMPTY_DATA).
Proof.
  split.
  - apply (lightcast_ready_none_ready Sample.is_na Sample.str_contains
             (Table [Sample.row "1" "java" " ";
                     Sample.row "2" "javascript" "null"])).
    intros r [<-|[<-|[]]]; reflexivity.
  - apply (lightcast_ready_none_ready Sample.is_na Sample.str_contains Blank).
    intros r [].
Defined.

(* ================================================================== *)
(** * Further properties: the normalisation pass *)
(* ================================================================== *)

Section NormalizeMore.

Variable search : nat -> string -> option (list lightcast_service.Hit).
Variable to_excel : DataFrame -> result unit.

Abbreviation lookup := (lightcast_service.lookup search).
Abbreviation normalize_rows := (lightcast_service.normalize_rows search).
Abbreviation normalize_file :=
  (lightcast_service.normalize_file search to_excel).
Abbreviation skill_of :=
  (fun row => Py.strip (lightcast_service.in_skill_name row)).

Lemma lookup_keys (i : nat) (row : lightcast_service.InputRow) (skill : string) :
  remote_skill_id (lookup i row skill) = lightcast_service.in_remote_skill_id row
  /\ workday_skill (lookup i row skill) = skill.
Proof.
  unfold lightcast_service.lookup.
  destruct (search i skill) as [[|s rest]|]; simpl; auto.
  destruct (lightcast_service.hit_name s), (lightcast_service.hit_id s);
    simpl; auto.
Qed.

(** The three outcomes of one lookup. *)
Lemma lookup_status (i : nat) (row : lightcast_service.InputRow) (skill : string) :
  status (lookup i row skill) = "SUCCESS"
  \/ ((status (lookup i row skill) = "NO_MATCH"
       \/ status (lookup i row skill) = "ERROR")
      /\ lightcast_skill (lookup i row skill) = ""
      /\ lightcast_skill_id (lookup i row skill) = ""
      /\ skill_type (lookup i row skill) = ""
      /\ category (lookup i row skill) = "").
Proof.
  unfold lightcast_service.lookup.
  destruct (search i skill) as [[|s rest]|]; simpl; auto 6.
  destruct (lightcast_service.hit_name s), (lightcast_service.hit_id s);
    simpl; auto 6.
Qed.

Lemma normalize_rows_columns (df : list lightcast_service.InputRow) :
  forall i,
    map remote_skill_id (normalize_rows i df [])
    = map lightcast_service.in_remote_skill_id (filter processed df)
    /\ map workday_skill (normalize_rows i df [])
       = map skill_of (filter processed df).
Proof.
  induction df as [|row rest IH]; intros i; simpl; [auto|].
  change (processed row)
    with (negb (Py.strip (lightcast_service.in_skill_name row) =? "")).
  destruct (Py.strip (lightcast_service.in_skill_name row) =? "") eqn:E; simpl.
  - apply IH.
  - rewrite normalize_rows_acc. simpl.
    destruct (lookup_keys i row (Py.strip (lightcast_service.in_skill_name row)))
      as [-> ->].
    destruct (IH (S i)) as [-> ->]. auto.
Qed.

Lemma normalize_rows_In (df : list lightcast_service.InputRow) :
  forall i r,
    In r (normalize_rows i df []) ->
    exists j row, In row df /\ processed row = true
                  /\ r = lookup j row (skill_of row).
Proof.
  induction df as [|row rest IH]; intros i r; simpl; [contradiction|].
  destruct (Py.strip (lightcast_service.in_skill_name row) =? "") eqn:E.
  - intros H. destruct (IH _ _ H) as (j & row' & Hin & Hp & ->).
    exists j, row'. auto.
  - rewrite normalize_rows_acc. simpl. intros [<-|H].
    + exists i, row. unfold processed. rewrite E. auto.
    + destruct (IH _ _ H) as (j & row' & Hin & Hp & ->).
      exists j, row'. auto.
Qed.

Lemma normalize_file_store (st st' : Store) (token : result string)
    (suffix : string) (df : list lightcast_service.InputRow) :
  normalize_file st token suffix df = (st', Ok tt) ->
  st' = lightcast_service.to_csv (normalize_rows 0 df [])
  /\ to_excel (normalize_rows 0 df []) = Ok tt.
Proof.
  unfold lightcast_service.normalize_file.
  destruct token; [|discriminate].
  destruct (lightcast_service.supported suffix); [|discriminate].
  now intros [= <- ->].
Qed.

Lemma to_csv_table (results stored : DataFrame) :
  lightcast_service.to_csv results = Table stored -> results = stored.
Proof. destruct results; [discriminate|now intros [= <-]]. Qed.

(** X11. A successful pass overwrites the store with the file written
    from one record per uploaded row whose stripped skill name is not
    empty, in upload order, each carrying that row's remote_skill_id and
    stripped name; what the store held before plays no part. *)
Theorem normalize_file_one_record_per_row
    (st st' : Store) (token : result string) (suffix : string)
    (df : list lightcast_service.InputRow) :
  normalize_file st token suffix df = (st', Ok tt) ->
  exists stored,
    st' = lightcast_service.to_csv stored
    /\ length stored = length (filter processed df)
    /\ map remote_skill_id stored
       = map lightcast_service.in_remote_skill_id (filter processed df)
    /\ map workday_skill stored = map skill_of (filter processed df)
    /\ forall other, normalize_file other token suffix df = (st', Ok tt).
Proof.
  intros H. pose proof (normalize_file_store _ _ _ _ _ H) as [-> _].
  eexists. split; [reflexivity|].
  destruct (normalize_rows_columns df 0) as [Hid Hw].
  split; [|split; [exact Hid|split; [exact Hw|]]].
  - rewrite <- (length_map workday_skill), Hw. apply length_map.
  - intros other. revert H. unfold lightcast_service.normalize_file.
    destruct token; [|discriminate].
    destruct (lightcast_service.supported suffix); [|discriminate].
    exact id.
Qed.

(** X12. Every record a successful pass stores has a stripped, non-empty
    workday_skill and one of the three statuses, and a record whose status
    is not SUCCESS has its four canonical fields empty. *)
Theorem normalize_file_record_invariants
    (st : Store) (token : result string) (suffix : string)
    (df : list lightcast_service.InputRow) (stored : DataFrame) :
  normalize_file st token suffix df = (Table stored, Ok tt) ->
  Forall (fun r =>
            workday_skill r <> ""
            /\ Py.strip (workday_skill r) = workday_skill r
            /\ (status r = "SUCCESS" \/ status r = "NO_MATCH"
                \/ status r = "ERROR")
            /\ (status r <> "SUCCESS" ->
                lightcast_skill r = "" /\ lightcast_skill_id r = ""
                /\ skill_type r = "" /\ category r = "")) stored.
Proof.
  intros H. apply normalize_file_store in H as [H _].
  symmetry in H. apply to_csv_table in H. subst stored.
  apply Forall_forall. intros r Hr.
  apply normalize_rows_In in Hr as (j & row & _ & Hp & ->).
  destruct (lookup_keys j row (skill_of row)) as [_ Hw].
  rewrite Hw. split; [|split; [apply strip_idem|]].
  - unfold processed in Hp. now apply negb_true_iff, String.eqb_neq in Hp.
  - destruct (lookup_status j row (skill_of row)) as [Hs|([Hs|Hs] & He)];
      rewrite Hs; split; auto; intros Hne; try exact He; now elim Hne.
Qed.

End NormalizeMore.

Section NormalizeThenStore.

Variable search : nat -> string -> option (list lightcast_service.Hit).
Variable is_na : string -> bool.
Variable str_contains : string -> string + (string -> bool).

(** The pass and the store write the same sheet. *)
Variable to_excel : DataFrame -> result unit.

Lemma ready_rows_in_base (st : Store) (a b : option string) (rows : DataFrame) :
  skill_store.get_lightcast_ready_df is_na str_contains st a b = Ok rows ->
  incl rows (filter (fun r => negb (Py.strip (lightcast_skill r) =? ""))
                    (rows_read is_na st)).
Proof.
  unfold skill_store.get_lightcast_ready_df.
  destruct (store_readable is_na st) as [->|Hread]; [discriminate|].
  rewrite Hread. cbn [bind].
  unfold skill_store.contains_mask, skill_store.when_given.
  set (base := filter _ (rows_read is_na st)). clearbody base.
  destruct base as [|r0 base0]; [discriminate|].
  set (base := r0 :: base0) in *. clearbody base.
  intros H r Hr.
  case_given a; case_given b; simpl in H;
    repeat match type of H with
      | context [str_contains ?p] => destruct (str_contains p); simpl in H
      | context [if ?c then _ else _] => destruct c; simpl in H
      end;
    try discriminate; injection H as <-;
    repeat match goal with
      | Hr : In _ (filter _ _) |- _ => apply filter_In in Hr as [Hr _]
      end; assumption.
Qed.

(** X13. After a successful normalisation pass, every row the
    lightcast-ready listing returns is the reading of a stored record whose
    status is SUCCESS: rows without a match and rows whose lookup failed
    never reach the listing. *)
Theorem normalized_ready_rows_are_success
    (st : Store) (token : result string) (suffix : string)
    (df : list lightcast_service.InputRow) (stored : DataFrame)
    (a b : option string) (rows : DataFrame) :
  lightcast_service.normalize_file search to_excel st token suffix df
  = (Table stored, Ok tt) ->
  skill_store.get_lightcast_ready_df is_na str_contains (Table stored) a b
  = Ok rows ->
  forall r, In r rows ->
    exists raw, In raw stored
                /\ r = skill_store.read_row is_na raw
                /\ status raw = "SUCCESS".
Proof.
  intros Hn Hr r Hin.
  apply ready_rows_in_base in Hr. apply Hr, filter_In in Hin as [Hin Hready].
  unfold rows_read in Hin. simpl in Hin.
  apply in_map_iff in Hin as (raw & <- & Hraw).
  exists raw. split; [exact Hraw|]. split; [reflexivity|].
  apply normalize_file_store in Hn as [Hn _].
  symmetry in Hn. apply to_csv_table in Hn. subst stored.
  apply normalize_rows_In in Hraw as (j & row & _ & _ & ->).
  destruct (lookup_status search j row
              (Py.strip (lightcast_service.in_skill_name row)))
    as [Hs|(_ & He & _)]; [exact Hs|].
  simpl in Hready. rewrite He in Hready.
  unfold skill_store.read_cell in Hready.
  now destruct (is_na "").
Qed.

(** X14. A skill that went through a successful normalisation pass can be
    addressed by an update under the name it was uploaded with, whatever
    its letter case and outer white space, provided the reader does not
    take its stripped name for a missing value: the file the pass wrote
    holds a row that matches the name, so the update does not raise its
    not-found error; it rewrites the file with the new value in that row
    and ends as the sheet writer does. *)
Theorem normalized_skill_can_be_updated
    (st st' : Store) (token : result string) (suffix : string)
    (df : list lightcast_service.InputRow)
    (row : lightcast_service.InputRow) (v : string) :
  lightcast_service.normalize_file search to_excel st token suffix df
  = (st', Ok tt) ->
  In row df ->
  Py.strip (lightcast_service.in_skill_name row) <> "" ->
  is_na (Py.strip (lightcast_service.in_skill_name row)) = false ->
  (exists r, In r (rows_read is_na st')
             /\ skill_store.exact_mask
                  (lightcast_service.in_skill_name row) r = true)
  /\ exists df',
       skill_store.update_lightcast_skill is_na to_excel st'
         (lightcast_service.in_skill_name row) v
       = (Table df', to_excel df')
       /\ exists r', In r' df'
                     /\ skill_store.exact_mask
                          (lightcast_service.in_skill_name row) r' = true
                     /\ lightcast_skill r' = v.
Proof.
  intros Hn Hrow Hne Hna.
  apply normalize_file_store in Hn as [-> _].
  assert (Hin : In (Py.strip (lightcast_service.in_skill_name row))
                   (map workday_skill
                      (lightcast_service.normalize_rows search 0 df []))).
  { destruct (normalize_rows_columns search df 0) as [_ ->].
    apply in_map_iff. exists row. split; [reflexivity|].
    apply filter_In. split; [exact Hrow|].
    unfold processed. now apply negb_true_iff, String.eqb_neq. }
  apply in_map_iff in Hin as (raw & Hw & Hraw).
  destruct (lightcast_service.normalize_rows search 0 df [])
    as [|r0 stored] eqn:Erows; [contradiction|].
  cbn [lightcast_service.to_csv].
  set (name := lightcast_service.in_skill_name row) in *.
  assert (Hm : skill_store.exact_mask name (skill_store.read_row is_na raw)
               = true).
  { unfold skill_store.exact_mask. simpl. rewrite Hw.
    unfold skill_store.read_cell. rewrite Hna.
    apply String.eqb_eq. apply strip_lower_strip. }
  assert (Hr : In (skill_store.read_row is_na raw)
                  (rows_read is_na (Table (r0 :: stored)))).
  { unfold rows_read. cbn [skill_store.load_df]. now apply in_map. }
  split; [eauto|].
  unfold skill_store.update_lightcast_skill, skill_store.save_df.
  change (skill_store.load_df is_na (Table (r0 :: stored)))
    with (Ok (rows_read is_na (Table (r0 :: stored)))).
  cbv beta iota zeta.
  assert (E : existsb (skill_store.exact_mask name)
                (rows_read is_na (Table (r0 :: stored))) = true).
  { apply existsb_exists. eauto. }
  rewrite E. cbn [negb]. cbv iota zeta.
  eexists. split; [reflexivity|].
  exists (set_lightcast_skill v (skill_store.read_row is_na raw)).
  split; [|split; [exact Hm|reflexivity]].
  unfold skill_store.loc_set_lightcast. apply in_map_iff.
  exists (skill_store.read_row is_na raw). now rewrite Hm.
Qed.

End NormalizeThenStore.

(** ** Worked cases for the normalisation pass *)

Lemma normalize_file_one_record_per_row_witness :
  exists stored,
    Table [mkSkill "7" "sql" "" "" "" "" "NO_MATCH";
           mkSkill "9" "nan" "" "" "" "" "ERROR"]
    = lightcast_service.to_csv stored
    /\ length stored = 2.
Proof.
  destruct (normalize_file_one_record_per_row
              (fun i _ => if i =? 0 then Some [] else None)%nat
              Sample.to_excel Sample.two_skills
              (Table [mkSkill "7" "sql" "" "" "" "" "NO_MATCH";
                      mkSkill "9" "nan" "" "" "" "" "ERROR"])
              (Ok "token") ".xlsx"
              [lightcast_service.mkInput "7" "sql ";
               lightcast_service.mkInput "8" "  ";
               lightcast_service.mkInput "9" "nan"]
              eq_refl) as (stored & Hst & Hlen & _).
  exists stored. split; [exact Hst|exact Hlen].
Defined.

Lemma normalize_file_record_invariants_witness :
  Forall (fun r =>
            workday_skill r <> ""
            /\ Py.strip (workday_skill r) = workday_skill r
            /\ (status r = "SUCCESS" \/ status r = "NO_MATCH"
                \/ status r = "ERROR")
            /\ (status r <> "SUCCESS" ->
                lightcast_skill r = "" /\ lightcast_skill_id r = ""
                /\ skill_type r = "" /\ category r = ""))
         [mkSkill "7" "sql" "" "" "" "" "ERROR"].
Proof.
  apply (normalize_file_record_invariants
           (fun _ _ => Some [lightcast_service.mkHit (Some "SQL") None
                               (Some "ST1") None])
           Sample.to_excel Absent (Ok "token") ".csv"
           [lightcast_service.mkInput "7" " sql"]).
  reflexivity.
Defined.

Lemma normalized_ready_rows_are_success_witness :
  exists raw,
    In raw [mkSkill "7" "sql" "SQL" "KS1" "" "" "SUCCESS";
            mkSkill "8" "cobol" "" "" "" "" "NO_MATCH"]
    /\ mkSkill "7" "sql" "SQL" "KS1" "" "" "SUCCESS"
       = skill_store.read_row Sample.is_na raw
    /\ status raw = "SUCCESS".
Proof.
  apply (normalized_ready_rows_are_success
           (fun _ q => if q =? "sql"
                       then Some [lightcast_service.mkHit (Some "SQL")
                                    (Some "KS1") None None]
                       else Some [])
           Sample.is_na Sample.str_contains Sample.to_excel
           Absent (Ok "token") ".csv"
           [lightcast_service.mkInput "7" "sql";
            lightcast_service.mkInput "8" "cobol"]
           [mkSkill "7" "sql" "SQL" "KS1" "" "" "SUCCESS";
            mkSkill "8" "cobol" "" "" "" "" "NO_MATCH"]
           None None
           [mkSkill "7" "sql" "SQL" "KS1" "" "" "SUCCESS"]).
  - reflexivity.
  - reflexivity.
  - simpl. auto.
Defined.

(** The uploaded name " Sql " finds the stored row "Sql". *)
Lemma normalized_skill_can_be_updated_witness :
  exists df',
    skill_store.update_lightcast_skill Sample.is_na Sample.to_excel
      (Table [mkSkill "7" "Sql" "" "" "" "" "NO_MATCH"]) " Sql " "SQL"
    = (Table df', Sample.to_excel df')
    /\ exists r', In r' df'
                  /\ skill_store.exact_mask " Sql " r' = true
                  /\ lightcast_skill r' = "SQL".
Proof.
  apply (normalized_skill_can_be_updated (fun _ _ => Some []) Sample.is_na
           Sample.to_excel
           Absent (Table [mkSkill "7" "Sql" "" "" "" "" "NO_MATCH"])
           (Ok "token") ".csv"
           [lightcast_service.mkInput "7" " Sql "]
           (lightcast_service.mkInput "7" " Sql ") "SQL").
  - reflexivity.
  - simpl. auto.
  - vm_compute. discriminate.
  - reflexivity.
Defined.

(* ================================================================== *)
(** * Further properties: the crawler and the mapping pass *)
(* ================================================================== *)

Section CrawlFacts.

Variable quote_plus : string -> string.
Variable urljoin : string -> string -> string.
Variable search_anchors : string -> result (list coursera_service.Anchor).
Variable fetch_page : string -> result node.

Abbreviation scan_anchors :=
  (coursera_service.scan_anchors urljoin fetch_page).
Abbreviation fetch_courses_for_skill :=
  (coursera_service.fetch_courses_for_skill
     quote_plus urljoin search_anchors fetch_page).
Abbreviation course_of := (course_of urljoin fetch_page).

Lemma scan_anchors_first (anchors : list coursera_service.Anchor) :
  scan_anchors anchors [] []
  = match find (fun a => negb (coursera_service.slug_of a =? "")) anchors with
    | Some a => [course_of a]
    | None => []
    end.
Proof.
  induction anchors as [|a rest IH]; simpl; [reflexivity|].
  destruct (coursera_service.slug_of a =? ""); simpl; [exact IH|reflexivity].
Qed.

(** X15. When the search page is fetched, [fetch_courses_for_skill]
    succeeds whatever happens to the course pages, with at most
    [MAX_COURSES_PER_SKILL] courses: none when every selected link has a
    blank slug, otherwise the course of the first link whose slug is not
    blank, with the slug, the joined link and the skills read from its
    page (empty when that page cannot be fetched). *)
Theorem fetch_courses_first_eligible
    (skill : string) (anchors : list coursera_service.Anchor) :
  search_anchors (coursera_service.SEARCH_URL ++ quote_plus skill
                  ++ "&sortBy=BEST_MATCH") = Ok anchors ->
  exists courses,
    fetch_courses_for_skill skill = Ok courses
    /\ length courses <= coursera_service.MAX_COURSES_PER_SKILL
    /\ (courses = [] <->
        forall a, In a anchors -> coursera_service.slug_of a = "")
    /\ (forall c, In c courses ->
          c_course_slug c <> ""
          /\ exists before a after,
               anchors = (before ++ a :: after)%list
               /\ (forall x, In x before -> coursera_service.slug_of x = "")
               /\ c = course_of a).
Proof.
  intros Hs. unfold coursera_service.fetch_courses_for_skill.
  rewrite Hs. simpl. rewrite scan_anchors_first.
  eexists. split; [reflexivity|].
  destruct (find _ anchors) as [a|] eqn:E.
  - apply find_first in E as (before & after & -> & Ha & Hbefore).
    apply negb_true_iff, String.eqb_neq in Ha.
    split; [simpl; unfold coursera_service.MAX_COURSES_PER_SKILL; lia|].
    split.
    + split; [discriminate|]. intros H. elim Ha. apply H.
      apply in_or_app. right. now left.
    + intros c [<-|[]]. split; [exact Ha|].
      exists before, a, after. split; [reflexivity|]. split; [|reflexivity].
      intros x Hx. apply Hbefore in Hx.
      now apply negb_false_iff, String.eqb_eq in Hx.
  - split; [simpl; lia|]. split; [|intros c []].
    split; [|reflexivity]. intros _ a Ha.
    pose proof (find_none _ _ E a Ha) as Hn.
    now apply negb_false_iff, String.eqb_eq in Hn.
Qed.

(** A failed course page does not abort the crawl. *)
Lemma fetch_courses_first_eligible_page_failure (a : coursera_service.Anchor) :
  (forall url, exists e, fetch_page url = Raise e) ->
  c_course_skills (course_of a) = "".
Proof.
  intros H. unfold course_of. simpl.
  destruct (H (urljoin coursera_service.BASE_URL (coursera_service.href_of a)))
    as [e ->]. reflexivity.
Qed.

End CrawlFacts.

Section MappingPassFacts.

Variable fetch_courses_for_skill : string -> result (list Course).
Variable is_na : string -> bool.
Variable to_excel : list CourseMappingRow -> result unit.

Abbreviation crawl := (coursera_service.crawl fetch_courses_for_skill).
Abbreviation process_coursera :=
  (coursera_service.process_coursera fetch_courses_for_skill is_na to_excel).

Lemma crawl_invariant (df : DataFrame) :
  forall acc rows,
    crawl df acc = Ok rows ->
    (forall r, In r acc -> key_selected (coursera_service.key_of r)) ->
    (forall r, In r rows -> key_selected (coursera_service.key_of r))
    /\ (forall row q, In row df -> query_of row = Some q ->
          exists cs, fetch_courses_for_skill q = Ok cs)
    /\ ((forall row q, In row df -> query_of row = Some q ->
           fetch_courses_for_skill q = Ok []) -> rows = acc).
Proof.
  induction df as [|row rest IH]; intros acc rows H Hacc; simpl in H.
  - injection H as <-. split; [exact Hacc|]. split; [intros ? ? []|reflexivity].
  - unfold query_of.
    destruct (Py.strip (lightcast_skill row) =? "") eqn:El; simpl in H.
    + destruct (Py.strip (workday_skill row) =? "") eqn:Ew; simpl in H.
      * destruct (IH _ _ H Hacc) as (H1 & H2 & H3).
        split; [exact H1|]. split.
        -- intros row' q [<-|Hin] Hq.
           ++ unfold query_of in Hq. rewrite El, Ew in Hq. discriminate.
           ++ eapply H2; eauto.
        -- intros Hnone. apply H3. intros row' q Hin. apply Hnone. now right.
      * destruct (fetch_courses_for_skill (Py.strip (workday_skill row)))
          as [cs|e] eqn:Ef; simpl in H; [|discriminate].
        destruct (IH _ _ H) as (H1 & H2 & H3).
        { intros r Hr. apply in_app_or in Hr as [Hr|Hr]; [now apply Hacc|].
          apply in_map_iff in Hr as (c & <- & _). simpl. right.
          apply String.eqb_eq in El. apply String.eqb_neq in Ew. auto. }
        split; [exact H1|]. split.
        -- intros row' q [<-|Hin] Hq.
           ++ unfold query_of in Hq. rewrite El, Ew in Hq. simpl in Hq.
              injection Hq as <-. now exists cs.
           ++ eapply H2; eauto.
        -- intros Hnone.
           assert (Hcs : cs = []).
           { specialize (Hnone row (Py.strip (workday_skill row))
                           (or_introl eq_refl)).
             unfold query_of in Hnone. rewrite El, Ew in Hnone.
             specialize (Hnone eq_refl). congruence. }
           subst cs. simpl in H3. rewrite app_nil_r in H3. apply H3.
           intros row' q Hin. apply Hnone. now right.
    + destruct (fetch_courses_for_skill (Py.strip (lightcast_skill row)))
        as [cs|e] eqn:Ef; simpl in H; [|discriminate].
      destruct (IH _ _ H) as (H1 & H2 & H3).
      { intros r Hr. apply in_app_or in Hr as [Hr|Hr]; [now apply Hacc|].
        apply in_map_iff in Hr as (c & <- & _). simpl. left.
        apply String.eqb_neq in El. auto. }
      split; [exact H1|]. split.
      -- intros row' q [<-|Hin] Hq.
         ++ unfold query_of in Hq. rewrite El in Hq. simpl in Hq.
            injection Hq as <-. now exists cs.
         ++ eapply H2; eauto.
      -- intros Hnone.
         assert (Hcs : cs = []).
         { specialize (Hnone row (Py.strip (lightcast_skill row)) (or_introl eq_refl)).
           unfold query_of in Hnone. rewrite El in Hnone. simpl in Hnone.
           specialize (Hnone eq_refl). congruence. }
         subst cs. simpl in H3. rewrite app_nil_r in H3. apply H3.
         intros row' q Hin. apply Hnone. now right.
Qed.

Lemma crawl_none (df : DataFrame) :
  forall acc,
    (forall row q, In row df -> query_of row = Some q ->
       fetch_courses_for_skill q = Ok []) ->
    crawl df acc = Ok acc.
Proof.
  induction df as [|row rest IH]; intros acc Hnone; simpl; [reflexivity|].
  assert (Hrest : forall row' q, In row' rest -> query_of row' = Some q ->
                    fetch_courses_for_skill q = Ok []).
  { intros row' q Hin. apply Hnone. now right. }
  pose proof (Hnone row) as Hrow. unfold query_of in Hrow.
  destruct (Py.strip (lightcast_skill row) =? "") eqn:El; simpl in *.
  - destruct (Py.strip (workday_skill row) =? "") eqn:Ew; simpl in *.
    + now apply IH.
    + rewrite (Hrow _ (or_introl eq_refl) eq_refl). simpl.
      rewrite app_nil_r. now apply IH.
  - rewrite (Hrow _ (or_introl eq_refl) eq_refl). simpl.
    rewrite app_nil_r. now apply IH.
Qed.

Lemma crawl_raise (df : DataFrame) :
  forall acc e,
    crawl df acc = Raise e ->
    exists row q, In row df /\ query_of row = Some q
                  /\ fetch_courses_for_skill q = Raise e.
Proof.
  induction df as [|row rest IH]; intros acc e H; simpl in H; [discriminate|].
  assert (Hrest : forall acc', crawl rest acc' = Raise e ->
            exists row' q, In row' (row :: rest) /\ query_of row' = Some q
                           /\ fetch_courses_for_skill q = Raise e).
  { intros acc' H'. destruct (IH _ _ H') as (row' & q & Hin & Hq & Hf).
    exists row', q. split; [now right|auto]. }
  destruct (Py.strip (lightcast_skill row) =? "") eqn:El; simpl in H.
  - destruct (Py.strip (workday_skill row) =? "") eqn:Ew; simpl in H.
    + eapply Hrest; eauto.
    + destruct (fetch_courses_for_skill (Py.strip (workday_skill row)))
        as [cs|e'] eqn:Ef; simpl in H.
      * eapply Hrest; eauto.
      * injection H as <-. exists row, (Py.strip (workday_skill row)).
        split; [now left|]. split; [|exact Ef].
        unfold query_of. now rewrite El, Ew.
  - destruct (fetch_courses_for_skill (Py.strip (lightcast_skill row)))
      as [cs|e'] eqn:Ef; simpl in H.
    + eapply Hrest; eauto.
    + injection H as <-. exists row, (Py.strip (lightcast_skill row)).
      split; [now left|]. split; [|exact Ef].
      unfold query_of. now rewrite El.
Qed.

Lemma aggregate_key_from_rows (rows : list CourseMappingRow)
    (out : CourseMappingRow) :
  In out (coursera_service.aggregate rows) ->
  exists r, In r rows /\ coursera_service.key_of out = coursera_service.key_of r.
Proof.
  unfold coursera_service.aggregate. intros H.
  apply in_map_iff in H as ([k x] & <- & Hg).
  destruct (groupby_In rows _ Hg) as [(r & Hr & Hk) _]. simpl in Hk. subst k.
  exists r. split; [exact Hr|apply agg_group_key].
Qed.

Lemma aggregate_nonempty (rows : list CourseMappingRow) :
  rows <> [] -> coursera_service.aggregate rows <> [].
Proof.
  destruct rows as [|r rows]; [congruence|]. intros _ Hnil.
  assert (Hk : In (coursera_service.key_of r)
                  (map fst (coursera_service.groupby (r :: rows)))).
  { apply groupby_keys. now left. }
  unfold coursera_service.aggregate in Hnil.
  apply map_eq_nil in Hnil. rewrite Hnil in Hk. exact Hk.
Qed.

(** X16. When the mapping pass succeeds its sheet is not empty, the
    crawler answered for every store row that has a skill to search, and
    every row of the sheet records the search it came from: source
    LIGHTCAST with the stripped lightcast skill as the searched text when
    that skill is not blank, otherwise source WORKDAY with the stripped,
    non-blank workday skill. *)
Theorem process_coursera_rows_record_search
    (st : Store) (out : list CourseMappingRow) :
  process_coursera st = Ok out ->
  out <> []
  /\ (forall o, In o out -> key_selected (coursera_service.key_of o))
  /\ (forall row q, In row (rows_read is_na st) ->
        query_of row = Some q ->
        exists cs, fetch_courses_for_skill q = Ok cs).
Proof.
  unfold coursera_service.process_coursera.
  destruct st as [| |raw]; [discriminate|discriminate|].
  change (skill_store.load_df is_na (Table raw))
    with (Ok (rows_read is_na (Table raw))).
  cbn [bind].
  destruct (crawl (rows_read is_na (Table raw)) []) as [rows|e] eqn:E;
    cbn [bind]; [|discriminate].
  destruct rows as [|r rows]; [discriminate|].
  destruct (to_excel _); cbn [bind]; [|discriminate]. intros [= <-].
  destruct (crawl_invariant _ _ _ E) as (Hkeys & Hfetch & _);
    [intros ? []|].
  split; [apply aggregate_nonempty; discriminate|]. split; [|exact Hfetch].
  intros o Ho. apply aggregate_key_from_rows in Ho as (r' & Hr' & Hk).
  change (key_selected (coursera_service.key_of o)). rewrite Hk.
  now apply Hkeys.
Qed.

(** X17. On the store files this program writes, the mapping pass fails
    in five ways only: the store file is absent; the file has no header
    line, and the pass raises the reader's error; the crawler raised for
    the skill of some store row, and the pass raises that same exception;
    no course was found; or the crawl emitted rows and the sheet writer
    raised on their aggregation, and the pass raises that same exception. *)
Theorem process_coursera_failures (st : Store) (e : exn) :
  process_coursera st = Raise e ->
  (st = Absent /\ e = ValueError "normalized_skills.csv not found")
  \/ (st = Blank /\ e = ValueError EMPTY_DATA)
  \/ (exists row q, In row (rows_read is_na st)
                    /\ query_of row = Some q
                    /\ fetch_courses_for_skill q = Raise e)
  \/ (crawl (rows_read is_na st) [] = Ok []
      /\ e = ValueError "No Coursera courses found")
  \/ (exists rows, crawl (rows_read is_na st) [] = Ok rows
                   /\ rows <> []
                   /\ to_excel (coursera_service.aggregate rows) = Raise e).
Proof.
  unfold coursera_service.process_coursera.
  destruct st as [| |raw];
    [intros [= <-]; now left | intros [= <-]; right; now left |].
  change (skill_store.load_df is_na (Table raw))
    with (Ok (rows_read is_na (Table raw))).
  cbn [bind].
  destruct (crawl (rows_read is_na (Table raw)) []) as [rows|e'] eqn:E;
    cbn [bind].
  - destruct rows as [|r rows].
    + intros [= <-]. right. right. right. left. auto.
    + destruct (to_excel _) eqn:Es; cbn [bind]; [discriminate|].
      intros [= <-]. right. right. right. right.
      eexists. split; [reflexivity|]. split; [discriminate|exact Es].
  - intros [= <-]. right. right. left. eapply crawl_raise; eauto.
Qed.

(** X18. On a store file that has its header line, when the crawler finds
    no course for any row that has a skill to search (and so also when
    every row has both skills blank, or the file has no rows under the
    header), the pass raises "No Coursera courses found". *)
Theorem process_coursera_no_course (raw : DataFrame) :
  (forall row q, In row (rows_read is_na (Table raw)) ->
     query_of row = Some q -> fetch_courses_for_skill q = Ok []) ->
  process_coursera (Table raw) = Raise (ValueError "No Coursera courses found").
Proof.
  intros H. unfold coursera_service.process_coursera.
  change (skill_store.load_df is_na (Table raw))
    with (Ok (rows_read is_na (Table raw))).
  cbn [bind]. now rewrite (crawl_none _ [] H).
Qed.

End MappingPassFacts.

(* ================================================================== *)
(** * Further properties: the aggregation *)
(* ================================================================== *)

Lemma prefix_comma (c1 c2 : ascii) (s s' : string) :
  String.prefix ", " (String c1 (String c2 s))
  = String.prefix ", " (String c1 (String c2 s')).
Proof.
  cbn [String.prefix]. destruct (ascii_dec ","%char c1); [|reflexivity].
  destruct (ascii_dec " "%char c2); [|reflexivity].
  now destruct s, s'.
Qed.

Lemma prefix_comma_short (c : ascii) : String.prefix ", " (String c "") = false.
Proof. cbn [String.prefix]. now destruct (ascii_dec ","%char c). Qed.

Lemma prefix_comma_shifted (c : ascii) (s : string) :
  String.prefix ", " (String c (String "," s)) = false.
Proof.
  cbn [String.prefix]. destruct (ascii_dec ","%char c); [|reflexivity].
  destruct (ascii_dec " "%char ","%char); [discriminate|reflexivity].
Qed.

Lemma split_from_step (sep : string) (c : ascii) (s : string) :
  Py.split_from sep 0 (String c s)
  = if String.prefix sep (String c s)
    then let '(p, ps) := Py.split_from sep (String.length sep - 1) s in
         (EmptyString, p :: ps)
    else let '(p, ps) := Py.split_from sep 0 s in (String c p, ps).
Proof. reflexivity. Qed.

Lemma split_from_skip (sep : string) (k : nat) (c : ascii) (s : string) :
  Py.split_from sep (S k) (String c s) = Py.split_from sep k s.
Proof. reflexivity. Qed.

Lemma prefix_comma_here (s : string) :
  String.prefix ", " (String "," (String " " s)) = true.
Proof.
  cbn [String.prefix].
  destruct (ascii_dec ","%char ","%char) as [_|n]; [|now elim n].
  destruct (ascii_dec " "%char " "%char) as [_|n]; [|now elim n].
  now destruct s.
Qed.

(** Splitting on ", " a text made of two parts with ", " between them
    gives the pieces of the first part, then those of the second. *)
Lemma split_from_comma_app (b : string) :
  forall a,
    (Py.split_from ", " 0 (a ++ ", " ++ b)
     = (fst (Py.split_from ", " 0 a),
        (snd (Py.split_from ", " 0 a) ++ Py.split ", " b)%list))
    /\ (forall c,
          Py.split_from ", " 0 (String c a ++ ", " ++ b)
          = (fst (Py.split_from ", " 0 (String c a)),
             (snd (Py.split_from ", " 0 (String c a)) ++ Py.split ", " b)%list)).
Proof.
  assert (Hbase : Py.split_from ", " 0 (String "," (String " " b))
                  = ("", Py.split ", " b)).
  { unfold Py.split. rewrite split_from_step, prefix_comma_here.
    change (String.length ", " - 1) with 1. rewrite split_from_skip.
    now destruct (Py.split_from ", " 0 b). }
  induction a as [|c' a [IH1 IH2]].
  - split; [exact Hbase|]. intros c.
    change (String c "" ++ ", " ++ b)
      with (String c (String "," (String " " b))).
    rewrite split_from_step, prefix_comma_shifted, Hbase.
    rewrite (split_from_step ", " c ""), prefix_comma_short. reflexivity.
  - split; [apply IH2|]. intros c.
    change (String c (String c' a) ++ ", " ++ b)
      with (String c (String c' (a ++ ", " ++ b))).
    rewrite split_from_step, (split_from_step ", " c (String c' a)).
    rewrite (prefix_comma c c' (a ++ ", " ++ b) a).
    destruct (String.prefix ", " (String c (String c' a))).
    + change (String.length ", " - 1) with 1. rewrite !split_from_skip.
      rewrite IH1. now destruct (Py.split_from ", " 0 a).
    + change (String c' (a ++ ", " ++ b)) with (String c' a ++ ", " ++ b).
      rewrite (IH2 c'). now destruct (Py.split_from ", " 0 (String c' a)).
Qed.

Lemma split_comma_app (a b : string) :
  Py.split ", " (a ++ ", " ++ b)
  = (Py.split ", " a ++ Py.split ", " b)%list.
Proof.
  unfold Py.split at 1 2. rewrite (proj1 (split_from_comma_app b a)).
  now destruct (Py.split_from ", " 0 a).
Qed.

Lemma split_join_comma (x : string) (l : list string) :
  Py.split ", " (Py.join ", " (x :: l)) = flat_map (Py.split ", ") (x :: l).
Proof.
  revert x. induction l as [|y l IH]; intros x.
  - simpl. now rewrite app_nil_r.
  - change (Py.join ", " (x :: y :: l))
      with (x ++ ", " ++ Py.join ", " (y :: l)).
    rewrite split_comma_app, IH. reflexivity.
Qed.

Lemma fromkeys_app_known (l extra : list string) :
  incl extra l -> Py.fromkeys (l ++ extra) = Py.fromkeys l.
Proof.
  induction extra as [|x extra IH] using rev_ind; intros Hin.
  - now rewrite app_nil_r.
  - rewrite app_assoc. unfold Py.fromkeys, Py.fromkeys_by.
    rewrite (fromkeys_from_snoc String.eqb String.eqb_eq). simpl.
    assert (Hx : Py.mem String.eqb x (l ++ extra) = true).
    { apply (mem_In String.eqb String.eqb_eq). apply in_or_app. left.
      apply Hin. apply in_or_app. right. now left. }
    rewrite Hx, app_nil_r. apply IH.
    intros y Hy. apply Hin. apply in_or_app. now left.
Qed.

Lemma agg_skills_flat (x : string) (l : list string) :
  coursera_service.agg_skills (x :: l)
  = Py.join ", " (Py.fromkeys (flat_map (Py.split ", ") (x :: l))).
Proof.
  unfold coursera_service.agg_skills. now rewrite split_join_comma.
Qed.

(** X19. The skills column of a group is what one gets by cutting each
    row's own course_skills on ", ", putting the pieces of all rows in a
    row, keeping first occurrences and joining with ", ". *)
Theorem agg_skills_pieces (x : string) (l : list string) :
  coursera_service.agg_skills (x :: l)
  = Py.join ", " (Py.fromkeys (flat_map (Py.split ", ") (x :: l))).
Proof. exact (agg_skills_flat x l). Qed.

Lemma agg_unique_repeat (l : list string) (x : string) :
  In x l ->
  coursera_service.agg_unique (l ++ [x]) = coursera_service.agg_unique l.
Proof.
  intros H. unfold coursera_service.agg_unique. f_equal.
  apply fromkeys_app_known. intros y [<-|[]]. exact H.
Qed.

Lemma agg_skills_repeat (l : list string) (x : string) :
  In x l ->
  coursera_service.agg_skills (l ++ [x]) = coursera_service.agg_skills l.
Proof.
  intros H. destruct l as [|y l]; [contradiction|].
  change ((y :: l) ++ [x])%list with (y :: (l ++ [x]))%list.
  rewrite !agg_skills_flat. f_equal.
  change (y :: (l ++ [x]))%list with ((y :: l) ++ [x])%list.
  rewrite flat_map_app. apply fromkeys_app_known.
  intros p Hp. apply in_flat_map in Hp as (x' & [<-|[]] & Hp).
  apply in_flat_map. now exists x.
Qed.

Lemma key_leb_total (a b : coursera_service.Key) :
  coursera_service.key_leb a b = true \/ coursera_service.key_leb b a = true.
Proof.
  revert b. induction a as [|x a IH]; intros [|y b]; simpl; auto.
  rewrite (String.compare_antisym y x).
  destruct (String.compare x y); simpl; auto.
Qed.

Lemma aggregate_keys (rows : list CourseMappingRow) :
  map coursera_service.key_of (coursera_service.aggregate rows)
  = map fst (coursera_service.groupby rows).
Proof.
  unfold coursera_service.aggregate. rewrite map_map.
  apply map_ext_in. intros [k x] Hg.
  destruct (groupby_In rows _ Hg) as [(r & _ & Hk) _].
  simpl in *. subst k. apply agg_group_key.
Qed.

(** X20. The rows of the aggregated sheet come in increasing order of
    their six key columns, compared column by column as texts. *)
Theorem aggregate_sorted_by_key (rows : list CourseMappingRow) :
  Sorted (fun a b => coursera_service.key_leb a b = true)
         (map coursera_service.key_of (coursera_service.aggregate rows)).
Proof.
  rewrite aggregate_keys. unfold coursera_service.groupby.
  rewrite map_map. simpl. rewrite map_id.
  apply sorted_Sorted. exact key_leb_total.
Qed.

(** X21. Aggregation does not see a repeated row: adding to the crawl
    output a second copy of a row it already holds gives the same sheet. *)
Theorem aggregate_ignores_repeated_row
    (rows : list CourseMappingRow) (r : CourseMappingRow) :
  In r rows ->
  coursera_service.aggregate (rows ++ [r]) = coursera_service.aggregate rows.
Proof.
  intros Hr. unfold coursera_service.aggregate, coursera_service.groupby.
  assert (Hkeys : Py.fromkeys_by coursera_service.key_eqb
                    (map coursera_service.key_of (rows ++ [r]))
                  = Py.fromkeys_by coursera_service.key_eqb
                      (map coursera_service.key_of rows)).
  { rewrite map_app. simpl. unfold Py.fromkeys_by.
    rewrite (fromkeys_from_snoc _ key_eqb_eq). simpl.
    assert (Hm : Py.mem coursera_service.key_eqb (coursera_service.key_of r)
                   (map coursera_service.key_of rows) = true).
    { apply (mem_In _ key_eqb_eq). now apply in_map. }
    now rewrite Hm, app_nil_r. }
  rewrite Hkeys, !map_map. apply map_ext. intros k.
  rewrite filter_app. cbn [filter].
  destruct (coursera_service.key_eqb (coursera_service.key_of r) k) eqn:Ek;
    [|now rewrite app_nil_r].
  set (g := filter _ rows).
  assert (Hg : In r g). { apply filter_In. auto. }
  unfold coursera_service.agg_group. rewrite !map_app. cbn [map].
  rewrite !agg_unique_repeat, agg_skills_repeat;
    try reflexivity; now apply in_map.
Qed.

(* ================================================================== *)
(** * Further properties: the mapping sheet and the HTTP layer *)
(* ================================================================== *)

(** Running the validation part of a listing in a hypothesis: [sc] is the
    pattern test in use. *)
Ltac run_checks sc H :=
  repeat match type of H with
    | context [sc ?p] => destruct (sc p); simpl in H
    | context [if negb (existsb ?f ?l) then _ else _] =>
        let E := fresh "E" in destruct (existsb f l) eqn:E; simpl in H
    end;
  try discriminate.

Section MappingListFacts.

Variable fetch_courses_for_skill : string -> result (list Course).
Variable is_na : string -> bool.
Variable is_na_sheet : string -> bool.
Variable str_contains : string -> string + (string -> bool).
Variable to_excel : list CourseMappingRow -> result unit.

Abbreviation list_mapped :=
  (coursera_service.list_coursera_mapped_skills is_na_sheet str_contains).

(** X22. After a successful mapping pass the sheet it wrote can be listed:
    with no filter [list_coursera_mapped_skills] succeeds and returns every
    row of the sheet, as read, in order. *)
Theorem mapping_sheet_listable_after_pass
    (st : Store) (out : list CourseMappingRow) :
  coursera_service.process_coursera fetch_courses_for_skill is_na to_excel st
  = Ok out ->
  list_mapped (Some out) None None None
  = Ok (map (coursera_service.read_mapping_row is_na_sheet) out)
  /\ 0 < length out.
Proof.
  unfold coursera_service.process_coursera.
  destruct st as [| |raw]; [discriminate|discriminate|].
  cbn [skill_store.load_df bind].
  destruct (coursera_service.crawl _ _ _) as [rows|e]; cbn [bind];
    [|discriminate].
  destruct rows as [|r rows]; [discriminate|].
  destruct (to_excel _); cbn [bind]; [|discriminate]. intros [= <-].
  pose proof (aggregate_nonempty (r :: rows) ltac:(discriminate)) as Hne.
  destruct (coursera_service.aggregate (r :: rows)) as [|o out];
    [now elim Hne|].
  split; [reflexivity|simpl; lia].
Qed.

(** X23. What a successful [list_coursera_mapped_skills] returns is a
    selection of the sheet's rows in sheet order, never from an absent or
    empty sheet, and when a remote_skill_id is given every returned row has
    that id, both sides trimmed. *)
Theorem mapping_list_selects_in_order
    (file : coursera_service.MappingFile) (a b c : option string)
    (rows : list CourseMappingRow) :
  list_mapped file a b c = Ok rows ->
  (exists sheet keep,
     file = Some sheet /\ sheet <> []
     /\ rows = filter keep
                 (map (coursera_service.read_mapping_row is_na_sheet) sheet))
  /\ (forall rid, a = Some rid -> rid <> "" ->
        forall r, In r rows ->
          Py.strip (m_remote_skill_id r) = Py.strip rid).
Proof.
  unfold coursera_service.list_coursera_mapped_skills,
    coursera_service.mapping_contains_mask, skill_store.when_given.
  destruct file as [sheet|]; [|discriminate].
  destruct sheet as [|r0 sheet]; [discriminate|].
  set (df := map _ (r0 :: sheet)).
  change (match df with
          | [] => Raise (ValueError "No Coursera data available")
          | _ :: _ => ?body
          end) with body.
  assert (Edf : df = map (coursera_service.read_mapping_row is_na_sheet)
                         (r0 :: sheet)) by reflexivity.
  clearbody df. intros H.
  case_given a; case_given b; case_given c; simpl in H;
    run_checks str_contains H;
    injection H as <-; rewrite ?filter_twice;
    (split; [exists (r0 :: sheet); eexists;
             split; [reflexivity|]; split; [discriminate|];
             rewrite <- Edf;
             first [reflexivity | symmetry; apply filter_all]|]);
    intros rid Hrid Hne; try discriminate; injection Hrid as Hrid; subst;
    try (now elim Hne);
    intros r Hr; apply filter_In in Hr as [_ Hr];
    repeat (apply andb_true_iff in Hr as [Hr _]);
    now apply String.eqb_eq in Hr.
Qed.

End MappingListFacts.

(** X24. The two handlers that change the store answer an error in two
    situations only.  Either the store operation refused the request (no
    selector, no matching row, or a store file the reader cannot read):
    the update handler then answers 404 and the delete handler 400, and
    the store file is what it was.  Or the store file has been rewritten
    and the sheet writer raised after it: the answer is 500 with the
    writer's message (404 or 400 should the writer raise a [ValueError]),
    and the store file holds the new rows.  They answer with the sheet
    only when the writer accepted the rows now in the store file. *)
Theorem mutating_handlers_error_answers
    (is_na : string -> bool) (to_excel : DataFrame -> result unit)
    (st : Store) (w v : string) (rid ws : option string) :
  ((exists detail,
      main.update_skill is_na to_excel st w v
      = (st, main.HTTPException 404 detail)
      /\ (detail = "Workday skill not found" \/ st = Blank))
   \/ exists df',
        fst (main.update_skill is_na to_excel st w v) = Table df'
        /\ snd (main.update_skill is_na to_excel st w v)
           = match to_excel df' with
             | Ok _ => main.FileResponse main.NORMALIZED_FILE
             | Raise (ValueError m) => main.HTTPException 404 m
             | Raise (OtherError m) => main.HTTPException 500 m
             end)
  /\
  ((exists detail,
      main.delete_skill is_na to_excel st rid ws
      = (st, main.HTTPException 400 detail))
   \/ exists df',
        fst (main.delete_skill is_na to_excel st rid ws) = Table df'
        /\ snd (main.delete_skill is_na to_excel st rid ws)
           = match to_excel df' with
             | Ok _ => main.FileResponse main.NORMALIZED_FILE
             | Raise (ValueError m) => main.HTTPException 400 m
             | Raise (OtherError m) => main.HTTPException 500 m
             end).
Proof.
  split.
  - unfold main.update_skill, skill_store.update_lightcast_skill,
      skill_store.save_df.
    destruct (skill_store.load_df is_na st) as [df|e] eqn:L.
    + destruct (existsb _ _); cbn [negb]; cbv iota.
      * right. cbv zeta.
        match goal with |- context [Table ?d] => exists d end.
        destruct (to_excel _) as [u|[m|m]]; split; reflexivity.
      * left. eexists. split; [reflexivity|]. now left.
    + apply load_df_blank in L as [-> ->]. left.
      eexists. split; [reflexivity|]. now right.
  - unfold main.delete_skill, skill_store.delete_skill,
      skill_store.when_given, skill_store.not_found, Py.truthy,
      skill_store.save_df.
    destruct rid as [i|]; [destruct (i =? "")|];
      (destruct ws as [x|]; [destruct (x =? "")|]); cbn [negb andb];
      cbv iota;
      try (left; eexists; reflexivity);
      (destruct (skill_store.load_df is_na st) as [df|e] eqn:L;
       [|apply load_df_blank in L as [-> ->]; left; eexists; reflexivity]);
      repeat match goal with
        | |- context [existsb ?f ?l] =>
            destruct (existsb f l); cbn [negb]; cbv iota
        end;
      try (left; eexists; reflexivity);
      right; cbv zeta;
      match goal with |- context [Table ?d] => exists d end;
      destruct (to_excel _) as [u|[m|m]]; split; reflexivity.
Qed.

(** A value no worksheet cell can hold: the store file is rewritten with
    it, the sheet writer refuses it, and the handler answers 500. *)
Lemma update_skill_illegal_character :
  main.update_skill Sample.is_na Sample.strict_to_excel Sample.two_skills
    "java" (String (ascii_of_nat 11) "b")
  = (Table [Sample.row "1" "java" (String (ascii_of_nat 11) "b");
            Sample.row "2" "javascript" "JavaScript"],
     main.HTTPException 500
       (String (ascii_of_nat 11) "b" ++ " cannot be used in worksheets.")).
Proof. reflexivity. Qed.

Lemma allowed_origins_In (env o : string) :
  In o (main.ALLOWED_ORIGINS env) <->
  exists piece, In piece (Py.split "," env)
                /\ o = Py.strip piece /\ o <> "".
Proof.
  unfold main.ALLOWED_ORIGINS. rewrite in_map_iff. split.
  - intros (piece & <- & H). apply filter_In in H as [Hin Hne].
    exists piece. split; [exact Hin|]. split; [reflexivity|].
    now apply negb_true_iff, String.eqb_neq in Hne.
  - intros (piece & Hin & -> & Hne). exists piece. split; [reflexivity|].
    apply filter_In. split; [exact Hin|].
    now apply negb_true_iff, String.eqb_neq.
Qed.

(** X25. The allowed origins are the comma-separated pieces of the
    FRONTEND_ORIGINS text, stripped, without the blank ones: no allowed
    origin is empty or keeps white space around it, and every piece that is
    not blank is allowed once stripped. *)
Theorem allowed_origins_stripped (env : string) :
  (forall o, In o (main.ALLOWED_ORIGINS env) ->
     o <> "" /\ Py.strip o = o)
  /\ (forall piece, In piece (Py.split "," env) -> Py.strip piece <> "" ->
        In (Py.strip piece) (main.ALLOWED_ORIGINS env)).
Proof.
  split.
  - intros o Ho. apply allowed_origins_In in Ho as (piece & _ & -> & Hne).
    split; [exact Hne|apply strip_idem].
  - intros piece Hin Hne. apply allowed_origins_In. now exists piece.
Qed.

(** ** Worked cases for the crawler, the pass and the HTTP layer *)

(** The first link has no slug, so the second one gives the course. *)
Lemma fetch_courses_first_eligible_witness :
  exists courses,
    coursera_service.fetch_courses_for_skill Sample.quote_plus Sample.urljoin
      Sample.search_anchors Sample.fetch_page "python" = Ok courses
    /\ map c_course_slug courses = ["python-basics"]
    /\ map c_course_link courses
       = ["https://www.coursera.org/learn/python-basics"]
    /\ map c_course_skills courses = ["Data Analysis, Python"].
Proof.
  destruct (fetch_courses_first_eligible Sample.quote_plus Sample.urljoin
              Sample.search_anchors Sample.fetch_page "python" _ eq_refl)
    as (courses & Hfetch & _).
  exists courses. split; [exact Hfetch|].
  vm_compute in Hfetch. injection Hfetch as <-. repeat split.
Defined.

(** A store with a lightcast skill the crawler knows and a blank row. *)
Lemma process_coursera_rows_record_search_witness :
  exists out,
    coursera_service.process_coursera Sample.fetch_courses Sample.is_na
      Sample.sheet_to_excel
      (Table [Sample.row "1" "java" " Java "; Sample.row "2" " " ""]) = Ok out
    /\ out <> []
    /\ forall o, In o out -> key_selected (coursera_service.key_of o).
Proof.
  eexists. split; [reflexivity|].
  destruct (process_coursera_rows_record_search Sample.fetch_courses
              Sample.is_na Sample.sheet_to_excel
              (Table [Sample.row "1" "java" " Java "; Sample.row "2" " " ""])
              _ eq_refl) as (Hne & Hkeys & _).
  split; [exact Hne|exact Hkeys].
Defined.

(** The crawler fails for the second row's skill. *)
Lemma process_coursera_failures_witness :
  exists row q,
    In row (rows_read Sample.is_na
              (Table [Sample.row "1" "java" "Java"; Sample.row "2" "boom" ""]))
    /\ query_of row = Some q
    /\ Sample.fetch_courses q = Raise (OtherError "timeout").
Proof.
  destruct (process_coursera_failures Sample.fetch_courses Sample.is_na
              Sample.sheet_to_excel
              (Table [Sample.row "1" "java" "Java"; Sample.row "2" "boom" ""])
              (OtherError "timeout") eq_refl)
    as [[H _]|[[H _]|[H|[[_ H]|(rows & _ & _ & H)]]]].
  - discriminate H.
  - discriminate H.
  - exact H.
  - discriminate H.
  - discriminate H.
Defined.

(** Two rows the crawler finds nothing for. *)
Lemma process_coursera_no_course_witness :
  coursera_service.process_coursera Sample.fetch_courses Sample.is_na
    Sample.sheet_to_excel
    (Table [Sample.row "1" "cobol" ""; Sample.row "2" "" "  "])
  = Raise (ValueError "No Coursera courses found").
Proof.
  apply (process_coursera_no_course Sample.fetch_courses Sample.is_na
           Sample.sheet_to_excel).
  intros row q [<-|[<-|[]]] Hq; vm_compute in Hq; try discriminate.
  injection Hq as <-. reflexivity.
Defined.

Lemma aggregate_ignores_repeated_row_witness :
  coursera_service.aggregate
    [mkMapping "1" "java" "Java" "K1" "Java" "LIGHTCAST"
               "Intro" "intro" "https://www.coursera.org/learn/intro"
               "OOP, Java";
     mkMapping "1" "java" "Java" "K1" "Java" "LIGHTCAST"
               "Intro" "intro" "https://www.coursera.org/learn/intro"
               "OOP, Java"]
  = coursera_service.aggregate
      [mkMapping "1" "java" "Java" "K1" "Java" "LIGHTCAST"
                 "Intro" "intro" "https://www.coursera.org/learn/intro"
                 "OOP, Java"].
Proof.
  apply (aggregate_ignores_repeated_row
           [mkMapping "1" "java" "Java" "K1" "Java" "LIGHTCAST"
                      "Intro" "intro" "https://www.coursera.org/learn/intro"
                      "OOP, Java"]).
  simpl. auto.
Defined.

Lemma mapping_sheet_listable_after_pass_witness :
  exists out,
    coursera_service.list_coursera_mapped_skills Sample.is_na
      Sample.str_contains (Some out) None None None
    = Ok (map (coursera_service.read_mapping_row Sample.is_na) out)
    /\ 0 < length out.
Proof.
  eexists.
  apply (mapping_sheet_listable_after_pass Sample.fetch_courses Sample.is_na
           Sample.is_na Sample.str_contains Sample.sheet_to_excel
           (Table [Sample.row "1" "java" " Java "])).
  reflexivity.
Defined.

Lemma mapping_list_selects_in_order_witness :
  Py.strip (m_remote_skill_id
              (mkMapping "1" "java" "Java" "K1" "Java" "LIGHTCAST"
                         "Intro" "intro" "link" "OOP"))
  = Py.strip "1 ".
Proof.
  destruct (mapping_list_selects_in_order Sample.is_na Sample.str_contains
              (Some [mkMapping "1" "java" "Java" "K1" "Java" "LIGHTCAST"
                               "Intro" "intro" "link" "OOP";
                     mkMapping "2" "sql" "" "" "sql" "WORKDAY"
                               "Data" "data" "link2" "SQL"])
              (Some "1 ") None (Some "JAV")
              [mkMapping "1" "java" "Java" "K1" "Java" "LIGHTCAST"
                         "Intro" "intro" "link" "OOP"]
              eq_refl) as [_ H].
  apply (H "1 " eq_refl); [discriminate | simpl; auto].
Defined.

Lemma allowed_origins_stripped_witness :
  main.ALLOWED_ORIGINS " http://localhost:3000 , ,https://app.example.com,"
  = ["http://localhost:3000"; "https://app.example.com"]
  /\ In (Py.strip " http://localhost:3000 ")
        (main.ALLOWED_ORIGINS
           " http://localhost:3000 , ,https://app.example.com,").
Proof.
  split; [reflexivity|].
  apply (proj2 (allowed_origins_stripped
                  " http://localhost:3000 , ,https://app.example.com,")).
  - vm_compute. auto.
  - vm_compute. discriminate.
Defined.

(* ================================================================== *)
(** * Further properties: filters of the listings *)
(* ================================================================== *)

Lemma lower_empty_iff (s : string) : (Py.lower s =? "") = (s =? "").
Proof. now destruct s. Qed.

Section FilterFacts.

Variable is_na : string -> bool.
Variable str_contains : string -> string + (string -> bool).

Abbreviation frame := (rows_read is_na).
Abbreviation list_skills := (skill_store.list_skills is_na str_contains).
Abbreviation get_lightcast_ready_df :=
  (skill_store.get_lightcast_ready_df is_na str_contains).

(** X26. The lightcast-ready listing looks for a remote_skill_id among the
    ready rows only: when the store has a ready row but every row with the
    given id has a blank lightcast_skill, it raises its not-found error,
    whether or not a workday_skill filter is given. *)
Theorem lightcast_ready_hides_unready_id
    (st : Store) (rid : string) (w : option string) :
  rid <> "" ->
  (exists r, In r (frame st) /\ Py.strip (lightcast_skill r) <> "") ->
  (forall r, In r (frame st) -> skill_store.id_mask rid r = true ->
     Py.strip (lightcast_skill r) = "") ->
  get_lightcast_ready_df st (Some rid) w
  = Raise (skill_store.not_ready "remote_skill_id" rid).
Proof.
  intros Hne (r0 & Hr0 & Hready) Hblank.
  unfold skill_store.get_lightcast_ready_df, skill_store.when_given.
  rewrite (load_df_rows is_na st)
    by (apply (frame_nonempty_readable is_na); intros E; now rewrite E in Hr0).
  cbn [bind].
  set (ready := fun r => negb (Py.strip (lightcast_skill r) =? "")).
  assert (Hin : In r0 (filter ready (frame st))).
  { apply filter_In. split; [exact Hr0|].
    unfold ready. now apply negb_true_iff, String.eqb_neq. }
  assert (E : existsb (skill_store.id_mask rid) (filter ready (frame st))
              = false).
  { apply existsb_false_iff. intros r Hr. apply filter_In in Hr as [Hr Hrd].
    destruct (skill_store.id_mask rid r) eqn:Em; [|reflexivity].
    unfold ready in Hrd. rewrite (Hblank r Hr Em) in Hrd. discriminate. }
  destruct (filter ready (frame st)) as [|x base]; [contradiction|].
  apply String.eqb_neq in Hne. rewrite Hne, E. reflexivity.
Qed.

(** X27. The two skill filters of [list_skills] do not see letter case:
    a listing that succeeds returns the same rows when the workday_skill
    and lightcast_skill filters are given in lower case. *)
Theorem list_skills_filters_ignore_case
    (st : Store) (a b c : option string) (rows : DataFrame) :
  list_skills st a b c = Ok rows ->
  list_skills st a (option_map Py.lower b) (option_map Py.lower c) = Ok rows.
Proof.
  unfold skill_store.list_skills.
  destruct (skill_store.load_df is_na st) as [df|e]; cbn [bind];
    [|exact id].
  unfold skill_store.contains_mask, skill_store.when_given.
  destruct a as [i|], b as [w|], c as [l|]; cbn [option_map];
    rewrite ?lower_empty_iff, ?lower_idem; intros H;
    repeat match type of H with
      | context [?s =? ""] => destruct (s =? ""); simpl in H |- *
      | context [str_contains ?p] =>
          destruct (str_contains p); simpl in H |- *
      | context [if negb (existsb ?f ?l) then _ else _] =>
          destruct (existsb f l); simpl in H |- *
      end;
    first [discriminate | exact H].
Qed.

End FilterFacts.

Lemma lightcast_ready_hides_unready_id_witness :
  skill_store.get_lightcast_ready_df Sample.is_na Sample.str_contains
    (Table [Sample.row "1" "java" ""; Sample.row "2" "javascript" "JS"])
    (Some "1") None
  = Raise (skill_store.not_ready "remote_skill_id" "1")
  /\ skill_store.list_skills Sample.is_na Sample.str_contains
       (Table [Sample.row "1" "java" ""; Sample.row "2" "javascript" "JS"])
       (Some "1") None None
     = Ok [Sample.row "1" "java" ""].
Proof.
  split; [|reflexivity].
  apply (lightcast_ready_hides_unready_id Sample.is_na Sample.str_contains).
  - discriminate.
  - exists (Sample.row "2" "javascript" "JS").
    split; [simpl; auto | vm_compute; discriminate].
  - intros r [<-|[<-|[]]] Hm; [reflexivity | vm_compute in Hm; discriminate].
Defined.

Lemma list_skills_filters_ignore_case_witness :
  skill_store.list_skills Sample.is_na Sample.str_contains Sample.two_skills
    None (option_map Py.lower (Some "SCRIPT")) (option_map Py.lower None)
  = Ok [Sample.row "2" "javascript" "JavaScript"].
Proof.
  apply (list_skills_filters_ignore_case Sample.is_na Sample.str_contains
           Sample.two_skills None (Some "SCRIPT") None).
  reflexivity.
Defined.

